(** * Multi-Voice-Project: the multi-language chat client

    A shallow embedding of the browser side of the multi-language room:

    - [useMultiLanguageWebSocket]   (hooks/useMultiLanguageWebSocket.js)
    - [MultiLanguageDashboard]      (pages/MultiLanguageDashboard.jsx)
    - [SimpleMultiLanguageDashboard] (pages/SimpleMultiLanguageDashboard.jsx)

    and of what they use or sit next to: [ChatWindow], [VoiceRecorder]'s
    clock, [useSettings], the helpers of utils/helpers.js and the
    [VoiceWebSocket] class of utils/websocket.js.

    React state is threaded explicitly: every handler is a function from the
    hook state to the next hook state, functional [setState] updaters are
    applied in program order.  JavaScript values that the handlers inspect are
    modelled by [Js.value]; object literals by association lists in source
    order.  The clock, the random generator and the parsed frame are inputs
    of the handlers. *)

From Stdlib Require Import List String Ascii Bool ZArith QArith Lia.
From Stdlib Require Import DecimalString.
Import ListNotations.

Local Open Scope string_scope.
Local Open Scope list_scope.
Local Open Scope Z_scope.

(* ------------------------------------------------------------------ *)
(** ** JavaScript values and object literals *)
(* ------------------------------------------------------------------ *)

Module Js.

(** The primitive values a JSON frame member or a state field can hold.
    Numbers are exact rationals (NaN cannot come out of [JSON.parse] and
    floating-point rounding plays no role below). *)
Inductive value : Type :=
| VUndefined
| VNull
| VBool (b : bool)
| VNum (q : Q)
| VStr (s : string).

(** [ToBoolean]: the falsy primitives are undefined, null, false, 0 and the
    empty string. *)
Definition truthy (v : value) : bool :=
  match v with
  | VUndefined | VNull => false
  | VBool b => b
  | VNum q => negb (Qeq_bool q 0)
  | VStr s => negb (String.eqb s "")
  end.

(** [a === b] on primitives. *)
Definition strict_eq (a b : value) : bool :=
  match a, b with
  | VUndefined, VUndefined => true
  | VNull, VNull => true
  | VBool x, VBool y => Bool.eqb x y
  | VNum x, VNum y => Qeq_bool x y
  | VStr x, VStr y => String.eqb x y
  | _, _ => false
  end.

(** [a || b] and [a && b] return one of their operands. *)
Definition or_else (a b : value) : value := if truthy a then a else b.
Definition and_then (a b : value) : value := if truthy a then b else a.

(** An object literal: its members in source order. *)
Definition obj : Type := list (string * value).

(** Property read [o.k]; a missing property reads as undefined. *)
Fixpoint get (k : string) (o : obj) : value :=
  match o with
  | [] => VUndefined
  | (k', v) :: rest => if String.eqb k k' then v else get k rest
  end.

Definition keys (o : obj) : list string := map fst o.

Definition is_undefined (v : value) : bool :=
  match v with VUndefined => true | _ => false end.

(** [JSON.stringify o] for an object of primitives: the members are written
    in order, a member whose value is undefined is left out.  The frame on
    the wire is represented by the members written. *)
Definition JSON_stringify (o : obj) : obj :=
  filter (fun kv => negb (is_undefined (snd kv))) o.

(** Exceptions raised by a handler body. *)
Inductive result (A : Type) : Type :=
| Ok (a : A)
| TypeError (what : string).
Arguments Ok {A} a.
Arguments TypeError {A} what.

Definition bind {A B} (r : result A) (k : A -> result B) : result B :=
  match r with
  | Ok a => k a
  | TypeError w => TypeError w
  end.

(** [v.startsWith(p)]: only strings have the method; on undefined and null
    the property read throws, on booleans and numbers the property is
    undefined and the call throws. *)
Definition startsWith (v : value) (p : string) : result bool :=
  match v with
  | VStr s => Ok (String.prefix p s)
  | VUndefined | VNull => TypeError "Cannot read properties of undefined"
  | VBool _ | VNum _ => TypeError "startsWith is not a function"
  end.

(** [s.trim()] is empty exactly when every code unit of [s] is white space
    (TAB, LF, VT, FF, CR, SPACE, NBSP among the code units below 256). *)
Definition is_space (c : ascii) : bool :=
  let n := nat_of_ascii c in
  (Nat.leb 9 n && Nat.leb n 13) || Nat.eqb n 32 || Nat.eqb n 160.

Fixpoint trim_is_empty (s : string) : bool :=
  match s with
  | EmptyString => true
  | String c rest => is_space c && trim_is_empty rest
  end.

End Js.

Import Js.

Notation "x <- r ;; k" := (bind r (fun x => k))
  (at level 61, r at next level, right associativity).

(* ------------------------------------------------------------------ *)
(** ** hooks/useMultiLanguageWebSocket.js *)
(* ------------------------------------------------------------------ *)

Module Hook.

(** What the handlers read from the environment at the time they run:
    [Date.now()], [Math.random()] and [new Date().toISOString()]. *)
Record clock : Type := {
  now : Z;
  random : Q;
  iso : string
}.

(** The arguments of the hook. *)
Record props : Type := {
  roomId : value;
  userId : value;
  userLanguage : value
}.

(** A [WebSocket] object is named by the order of its construction. *)
Definition ws : Type := nat.

(** The hook's state cells, its ref, and what it did to the outside: the
    sockets constructed, the frames handed to [send] (with the socket whose
    [send] was called, whether the call returned or threw) and the delays
    handed to [setTimeout]. *)
Record state : Type := {
  socket : option ws;
  isConnected : bool;
  messages : list obj;
  roomUsers : list obj;
  isReconnecting : bool;
  reconnectAttempts : Z;
  created : nat;
  sent : list (ws * obj);
  timers : list Z
}.

Definition maxReconnectAttempts : Z := 5.

Definition init : state := {|
  socket := None;
  isConnected := false;
  messages := [];
  roomUsers := [];
  isReconnecting := false;
  reconnectAttempts := 0;
  created := 0;
  sent := [];
  timers := []
|}.

Definition setMessages (f : list obj -> list obj) (h : state) : state := {|
  socket := socket h;
  isConnected := isConnected h;
  messages := f (messages h);
  roomUsers := roomUsers h;
  isReconnecting := isReconnecting h;
  reconnectAttempts := reconnectAttempts h;
  created := created h;
  sent := sent h;
  timers := timers h
|}.

Definition setRoomUsers (f : list obj -> list obj) (h : state) : state := {|
  socket := socket h;
  isConnected := isConnected h;
  messages := messages h;
  roomUsers := f (roomUsers h);
  isReconnecting := isReconnecting h;
  reconnectAttempts := reconnectAttempts h;
  created := created h;
  sent := sent h;
  timers := timers h
|}.

(** The [readyState] of a socket. *)
Inductive readyState : Type := CONNECTING | OPEN | CLOSING | CLOSED.

(** How a call ends: it returns a value or throws an exception. *)
Inductive completion (A : Type) : Type :=
| Returns (a : A)
| Throws (name : string).
Arguments Returns {A} a.
Arguments Throws {A} name.

(** How [w.send(text)] ends on a socket whose readyState is [r]: it throws
    InvalidStateError while the socket is CONNECTING and returns otherwise
    (on a CLOSING or CLOSED socket the text is dropped without an
    exception). *)
Definition completes {A : Type} (r : readyState) (a : A) : completion A :=
  match r with
  | CONNECTING => Throws "InvalidStateError"
  | OPEN | CLOSING | CLOSED => Returns a
  end.

(** The record of a call [w.send(text)]: the frame with the socket it was
    handed to. *)
Definition handed (w : ws) (frame : obj) (h : state) : state := {|
  socket := socket h;
  isConnected := isConnected h;
  messages := messages h;
  roomUsers := roomUsers h;
  isReconnecting := isReconnecting h;
  reconnectAttempts := reconnectAttempts h;
  created := created h;
  sent := sent h ++ [(w, frame)];
  timers := timers h
|}.

(** [w.send(text)] on a socket whose readyState is [r]: the call is
    recorded, and ends as [completes] says. *)
Definition send (r : readyState) (w : ws) (frame : obj) (h : state)
  : completion unit * state :=
  (completes r tt, handed w frame h).

Fixpoint has_hash (s : string) : bool :=
  match s with
  | EmptyString => false
  | String c rest => Ascii.eqb c "#" || has_hash rest
  end.

(** Whether [new WebSocket(wsUrl)] throws.  The constructor throws
    SyntaxError for a URL that does not parse, that has another scheme than
    ws or wss, or that has a fragment.  [wsUrl] is
    [ws://localhost:8001/api/v2/ws/multi-language/] followed by the room
    id: it parses, its scheme is ws, and it has a fragment exactly when the
    room id contains [#] (the text of a number or boolean never does). *)
Definition url_rejected (p : props) : bool :=
  match roomId p with
  | VStr s => has_hash s
  | _ => false
  end.

(** [connect]: nothing happens unless the three arguments are truthy;
    otherwise a socket is constructed and stored with [setSocket], unless
    the constructor throws: the exception is caught and logged, and nothing
    is stored. *)
Definition connect (p : props) (h : state) : state * option ws :=
  if negb (truthy (roomId p)) || negb (truthy (userId p))
     || negb (truthy (userLanguage p))
  then (h, None)
  else if url_rejected p then (h, None)
  else
    let w := created h in
    ({| socket := Some w;
        isConnected := isConnected h;
        messages := messages h;
        roomUsers := roomUsers h;
        isReconnecting := isReconnecting h;
        reconnectAttempts := reconnectAttempts h;
        created := S (created h);
        sent := sent h;
        timers := timers h |}, Some w).

(** The object built in [ws.onopen]. *)
Definition join_frame (p : props) : obj :=
  [("user_id", userId p); ("language", userLanguage p)].

(** [ws.onopen]: in the handler of the open event the socket is OPEN. *)
Definition onopen (p : props) (w : ws) (h : state) : state :=
  let h := snd (send OPEN w (JSON_stringify (join_frame p)) h) in
  {| socket := socket h;
     isConnected := true;
     messages := messages h;
     roomUsers := roomUsers h;
     isReconnecting := false;
     reconnectAttempts := 0;
     created := created h;
     sent := sent h;
     timers := timers h |}.

(** [Date.now() + Math.random()]. *)
Definition fresh_id (c : clock) : value := VNum (inject_Z (now c) + random c)%Q.

(** The object stored for a [message] frame. *)
Definition chat_entry (c : clock) (data : obj) : obj :=
  [("id", fresh_id c);
   ("user_id", get "user_id" data);
   ("content", get "content" data);
   ("original_content", get "original_content" data);
   ("language", get "language" data);
   ("is_original", get "is_original" data);
   ("timestamp", or_else (get "timestamp" data) (VStr (iso c)))].

(** The object stored for a [user_joined] or [user_left] frame. *)
Definition system_entry (c : clock) (data : obj) : obj :=
  [("id", fresh_id c);
   ("type", VStr "system");
   ("content", get "message" data);
   ("timestamp", VStr (iso c))].

Definition same_user (id : value) (u : obj) : bool :=
  strict_eq (get "user_id" u) id.

(** The updater passed to [setRoomUsers] in case [user_joined]. *)
Definition join_roster (data : obj) (prev : list obj) : list obj :=
  match find (same_user (get "user_id" data)) prev with
  | Some _ => prev
  | None =>
      prev ++ [[("user_id", get "user_id" data);
                ("language", get "language" data)]]
  end.

(** The updater passed to [setRoomUsers] in case [user_left]. *)
Definition leave_roster (data : obj) (prev : list obj) : list obj :=
  filter (fun u => negb (same_user (get "user_id" data) u)) prev.

(** [ws.onmessage].  [parsed] is [JSON.parse(event.data)] when that is an
    object; [None] stands for a text that does not parse or parses to
    something else, where the handler changes nothing (the exception is
    caught, or the default case only logs). *)
Definition onmessage (c : clock) (parsed : option obj) (h : state) : state :=
  match parsed with
  | None => h
  | Some data =>
      match get "type" data with
      | VStr t =>
          if String.eqb t "connected" then h
          else if String.eqb t "message" then
            setMessages (fun prev => prev ++ [chat_entry c data]) h
          else if String.eqb t "user_joined" then
            setMessages (fun prev => prev ++ [system_entry c data])
              (setRoomUsers (join_roster data) h)
          else if String.eqb t "user_left" then
            setMessages (fun prev => prev ++ [system_entry c data])
              (setRoomUsers (leave_roster data) h)
          else if String.eqb t "typing" then h
          else h
      | _ => h
      end
  end.

(** [ws.onclose] with [event.code]. *)
Definition onclose (code : Z) (h : state) : state :=
  if negb (code =? 1000) && (reconnectAttempts h <? maxReconnectAttempts)
  then
    let n := reconnectAttempts h + 1 in
    {| socket := None;
       isConnected := false;
       messages := messages h;
       roomUsers := roomUsers h;
       isReconnecting := true;
       reconnectAttempts := n;
       created := created h;
       sent := sent h;
       timers := timers h ++ [2000 * n] |}
  else
    {| socket := None;
       isConnected := false;
       messages := messages h;
       roomUsers := roomUsers h;
       isReconnecting := isReconnecting h;
       reconnectAttempts := reconnectAttempts h;
       created := created h;
       sent := sent h;
       timers := timers h |}.

(** The object built in [sendMessage]. *)
Definition chat_frame (c : clock) (content : value) : obj :=
  [("type", VStr "chat");
   ("content", content);
   ("timestamp", VStr (iso c))].

(** [sendMessage(content)], called when the socket of the cell (if any)
    has the readyState [r]: how the call ends, with the returned boolean,
    and the next state.  There is no handler around [socket.send]: its
    exception leaves [sendMessage]. *)
Definition sendMessage (r : readyState) (c : clock) (content : value)
  (h : state) : completion bool * state :=
  match socket h with
  | Some w =>
      if isConnected h
      then
        let (done, h') := send r w (JSON_stringify (chat_frame c content)) h in
        match done with
        | Returns _ => (Returns true, h')
        | Throws name => (Throws name, h')
        end
      else (Returns false, h)
  | None => (Returns false, h)
  end.

(** The frames of a trace of inbound texts, handled one after the other. *)
Fixpoint receive (frames : list (clock * option obj)) (h : state) : state :=
  match frames with
  | [] => h
  | (c, d) :: rest => receive rest (onmessage c d h)
  end.

(** What happens to the hook over time: the mount effect or a fired timer
    calls [connect], a socket opens, a socket closes. *)
Inductive event : Type :=
| Connect
| Opened (w : ws)
| Closed (code : Z).

Definition step (p : props) (h : state) (e : event) : state :=
  match e with
  | Connect => fst (connect p h)
  | Opened w => onopen p w h
  | Closed code => onclose code h
  end.

Definition run (p : props) (es : list event) (h : state) : state :=
  fold_left (step p) es h.

(** The frames handed to [send] between two states. *)
Definition written (before after : state) : list (ws * obj) :=
  skipn (List.length (sent before)) (sent after).

(** A run of closes with no open in between. *)
Definition closes (codes : list Z) (h : state) : state :=
  fold_left (fun h code => onclose code h) codes h.

(** How many of the closes are not clean. *)
Definition abnormal (codes : list Z) : nat :=
  List.length (filter (fun code => negb (code =? 1000)) codes).

(** No two entries of a roster carry the same [user_id]. *)
Fixpoint unique_ids (roster : list obj) : bool :=
  match roster with
  | [] => true
  | u :: rest =>
      negb (existsb (same_user (get "user_id" u)) rest) && unique_ids rest
  end.

End Hook.

(* ------------------------------------------------------------------ *)
(** ** pages/MultiLanguageDashboard.jsx *)
(* ------------------------------------------------------------------ *)

Module Dashboard.

(** The component's own [messages] and [isInRoom] cells and the
    notifications handed to [addNotification]. *)
Record state : Type := {
  messages : list obj;
  isInRoom : bool;
  notifications : list obj
}.

(** [user?.username]: the prop is absent or carries the login name. *)
Definition username (user : option string) : value :=
  match user with
  | Some s => VStr s
  | None => VUndefined
  end.

(** [user?.username || 'anonymous'], also the hook's [userId]. *)
Definition me (user : option string) : value :=
  or_else (username user) (VStr "anonymous").

Definition text_of (v : value) : string :=
  match v with VStr s => s | _ => "" end.

(** The first effect: the list is replaced by the welcome message. *)
Definition welcome (user : option string) (stamp : string) : list obj :=
  [[("id", VStr "welcome-1");
    ("content",
     VStr ("Welcome " ++ text_of (or_else (username user) (VStr "User"))
           ++ "! Set up your languages to start multi-language conversations."));
    ("sender_type", VStr "bot");
    ("speaker_name", VStr "AI Assistant");
    ("timestamp", VStr stamp);
    ("emotion", VStr "neutral")]].

Definition welcome_effect (user : option string) (stamp : string) (d : state)
  : state :=
  {| messages := welcome user stamp;
     isInRoom := isInRoom d;
     notifications := notifications d |}.

(** The callback of [wsMessages.map].  [tag] is the text
    [${Date.now()}-${Math.random()}] at the time of the call. *)
Definition format (user : option string) (tag : string) (msg : obj) : obj :=
  [("id", or_else (get "id" msg) (VStr ("ws-" ++ tag)));
   ("content", get "content" msg);
   ("sender_type",
    if strict_eq (get "type" msg) (VStr "system") then VStr "system"
    else if strict_eq (get "user_id" msg) (me user) then VStr "user"
    else VStr "other");
   ("speaker_name", or_else (get "user_id" msg) (VStr "Unknown"));
   ("timestamp", get "timestamp" msg);
   ("original_content", get "original_content" msg);
   ("language", get "language" msg);
   ("is_original", get "is_original" msg);
   ("emotion", VStr "neutral")].

Fixpoint format_all (user : option string) (tags : nat -> string) (i : nat)
  (wsMessages : list obj) : list obj :=
  match wsMessages with
  | [] => []
  | msg :: rest => format user (tags i) msg :: format_all user tags (S i) rest
  end.

(** [prev.filter(m => !m.id.startsWith('welcome'))]: the callback runs on
    the elements in order and its exception leaves [filter]. *)
Fixpoint nonWelcome (prev : list obj) : result (list obj) :=
  match prev with
  | [] => Ok []
  | m :: rest =>
      w <- startsWith (get "id" m) "welcome" ;;
      rest' <- nonWelcome rest ;;
      Ok (if negb w then m :: rest' else rest')
  end.

(** The updater passed to [setMessages] by the second effect. *)
Definition merge (formatted prev : list obj) : result (list obj) :=
  kept <- nonWelcome prev ;;
  Ok (kept ++ formatted).

(** The second effect, run whenever [wsMessages] (or [user]) has changed.
    An exception of the updater leaves no state behind. *)
Definition sync_effect (user : option string) (tags : nat -> string)
  (wsMessages : list obj) (d : state) : result state :=
  match wsMessages with
  | [] => Ok d
  | _ :: _ =>
      ms <- merge (format_all user tags 0 wsMessages) (messages d) ;;
      Ok {| messages := ms;
            isInRoom := isInRoom d;
            notifications := notifications d |}
  end.

Definition send_failed : obj :=
  [("type", VStr "error");
   ("title", VStr "Message Failed");
   ("message", VStr "Could not send message. Please check your connection.");
   ("duration", VNum (inject_Z 3000));
   ("autoDismiss", VBool true)].

(** [sendTextMessage(text)]; [sendWSMessage] is the hook's [sendMessage],
    whose exception leaves [sendTextMessage] too. *)
Definition sendTextMessage (r : Hook.readyState) (c : Hook.clock)
  (text : string) (dh : state * Hook.state)
  : Hook.completion unit * (state * Hook.state) :=
  let (d, h) := dh in
  if trim_is_empty text || negb (isInRoom d) then (Hook.Returns tt, (d, h))
  else
    let (done, h') := Hook.sendMessage r c (VStr text) h in
    match done with
    | Hook.Throws name => (Hook.Throws name, (d, h'))
    | Hook.Returns success =>
        if negb success
        then (Hook.Returns tt,
              ({| messages := messages d;
                  isInRoom := isInRoom d;
                  notifications := notifications d ++ [send_failed] |}, h'))
        else (Hook.Returns tt, (d, h'))
    end.

(** One frame reaching the page: the hook handles it and the page renders
    again.  The second effect depends on [wsMessages]; it runs when the hook
    has stored a new list, that is when the handler has appended to it. *)
Definition deliver (user : option string) (tags : nat -> string)
  (c : Hook.clock) (frame : obj) (dh : state * Hook.state)
  : result (state * Hook.state) :=
  let (d, h) := dh in
  let h' := Hook.onmessage c (Some frame) h in
  if Nat.eqb (List.length (Hook.messages h')) (List.length (Hook.messages h))
  then Ok (d, h')
  else
    d' <- sync_effect user tags (Hook.messages h') d ;;
    Ok (d', h').

End Dashboard.

(* ------------------------------------------------------------------ *)
(** ** pages/SimpleMultiLanguageDashboard.jsx *)
(* ------------------------------------------------------------------ *)

Module Simple.

(** The guard of the "Original:" line under a message bubble:
    [message.original_content && message.original_content !== message.content]. *)
Definition shows_original (message : obj) : bool :=
  truthy
    (and_then (get "original_content" message)
       (VBool (negb (strict_eq (get "original_content" message)
                               (get "content" message))))).

(** The bubble is drawn on the sender's side when
    [message.user_id === userId]. *)
Definition is_own (userId : value) (message : obj) : bool :=
  strict_eq (get "user_id" message) userId.

End Simple.

(* ------------------------------------------------------------------ *)
(** ** The Room Controller's chat fan-out *)
(* ------------------------------------------------------------------ *)

Module RoomController.

(** Modelled from the spec: a Participant of a room (section 3), with the
    two fields the fan-out reads; the server is not among the sources. *)
Record participant : Type := {
  participant_id : string;
  declared_language : string
}.

(** What the Translation Adapter and the policy on echo contribute. *)
Section FanOut.

Variable translate : string -> string -> string -> option string.
Variable echo : bool.

(** Modelled from the spec: the server side of the room (Room Controller,
    section 4.2, chat message handling) is not among the sources.  One
    DerivedMessage per target language: the original text, marked original,
    for the language of the ChatEvent; otherwise the adapter's text, or on
    its failure the original text flagged [translation_failed]. *)
Definition derive (sender : participant) (text : string) (seq : Z)
  (stamp : string) (target : string) : obj :=
  let original := declared_language sender in
  let common (content : string) (is_original : bool) : obj :=
    [("type", VStr "message");
     ("sender_id", VStr (participant_id sender));
     ("content", VStr content);
     ("original_content", VStr text);
     ("language", VStr target);
     ("is_original", VBool is_original);
     ("sequence", VNum (inject_Z seq));
     ("timestamp", VStr stamp)] in
  if String.eqb target original then common text true
  else
    match translate text original target with
    | Some translated => common translated false
    | None => common text false ++ [("translation_failed", VBool true)]
    end.

(** Modelled from the spec: the distinct declared languages of the
    participants of the room, the sender among them (step 2). *)
Definition languages (room : list participant) : list string :=
  nodup string_dec (map declared_language room).

(** Modelled from the spec: who is written to; the sender is left out when
    the policy is not to echo (section 9). *)
Definition recipients (sender : participant) (room : list participant)
  : list participant :=
  if echo then room
  else filter (fun p => negb (String.eqb (participant_id p)
                                         (participant_id sender))) room.

(** Modelled from the spec: the fan-out plan of one chat frame (steps 3 and
    4): each language is derived once and its frame goes to every recipient
    that declared it. *)
Definition fan_out (room : list participant) (sender : participant)
  (text : string) (seq : Z) (stamp : string) : list (participant * obj) :=
  flat_map
    (fun target =>
       let frame := derive sender text seq stamp target in
       map (fun p => (p, frame))
         (filter (fun p => String.eqb (declared_language p) target)
            (recipients sender room)))
    (languages room).

End FanOut.

End RoomController.

(* ------------------------------------------------------------------ *)
(** ** A session used in the examples *)
(* ------------------------------------------------------------------ *)

Module Sample.

Import Hook.

Definition t0 : clock :=
  {| now := 1700000000000; random := (1 # 4)%Q;
     iso := "2023-11-14T22:13:20.000Z" |}.

Definition t1 : clock :=
  {| now := 1700000000500; random := (3 # 4)%Q;
     iso := "2023-11-14T22:13:20.500Z" |}.

Definition alice : props :=
  {| roomId := VStr "r1"; userId := VStr "alice"; userLanguage := VStr "en" |}.

(** The hook after its socket has opened. *)
Definition online : state := onopen alice 0%nat (fst (connect alice init)).

Definition bob_joined : obj :=
  [("type", VStr "user_joined"); ("user_id", VStr "bob");
   ("language", VStr "es"); ("message", VStr "bob joined the room")].

Definition bob_left : obj :=
  [("type", VStr "user_left"); ("user_id", VStr "bob");
   ("language", VStr "es"); ("message", VStr "bob left the room")].

Definition hola : obj :=
  [("type", VStr "message"); ("user_id", VStr "bob");
   ("content", VStr "Hello"); ("original_content", VStr "Hola");
   ("language", VStr "en"); ("is_original", VBool false);
   ("sequence", VNum (inject_Z 1));
   ("timestamp", VStr "2023-11-14T22:13:19.900Z")].

Definition adios : obj :=
  [("type", VStr "message"); ("user_id", VStr "bob");
   ("content", VStr "Goodbye"); ("original_content", VStr "Adios");
   ("language", VStr "en"); ("is_original", VBool false);
   ("sequence", VNum (inject_Z 2));
   ("timestamp", VStr "2023-11-14T22:13:20.400Z")].

(** The page of alice, in the room, showing the welcome message. *)
Definition page : Dashboard.state :=
  Dashboard.welcome_effect (Some "alice") (iso t0)
    {| Dashboard.messages := []; Dashboard.isInRoom := true;
       Dashboard.notifications := [] |}.

Definition tags (i : nat) : string := "1700000000000-0.5".

(** Six times over: the socket opens and is then lost. *)
Definition flapping : list event :=
  [Connect; Opened 0%nat; Closed 1006;
   Connect; Opened 1%nat; Closed 1006;
   Connect; Opened 2%nat; Closed 1006;
   Connect; Opened 3%nat; Closed 1006;
   Connect; Opened 4%nat; Closed 1006;
   Connect; Opened 5%nat; Closed 1006].

Definition en_es_room : list RoomController.participant :=
  [ {| RoomController.participant_id := "p1";
       RoomController.declared_language := "en" |};
    {| RoomController.participant_id := "p2";
       RoomController.declared_language := "es" |};
    {| RoomController.participant_id := "p3";
       RoomController.declared_language := "en" |} ].

Definition dictionary (text source target : string) : option string :=
  if String.eqb text "Hello" && String.eqb target "es" then Some "Hola"
  else None.

End Sample.

(* ------------------------------------------------------------------ *)
(** ** The rest of the hook: typing, errors, disconnecting, effects *)
(* ------------------------------------------------------------------ *)

Module Lifecycle.

Import Hook.

(** The object built in [sendTyping]. *)
Definition typing_frame (isTyping : value) : obj :=
  [("type", VStr "typing"); ("is_typing", isTyping)].

(** [sendTyping(isTyping)], called when the socket of the cell (if any)
    has the readyState [r]. *)
Definition sendTyping (r : readyState) (isTyping : value) (h : state)
  : completion unit * state :=
  match socket h with
  | Some w =>
      if isConnected h
      then send r w (JSON_stringify (typing_frame isTyping)) h
      else (Returns tt, h)
  | None => (Returns tt, h)
  end.

(** [ws.onerror]. *)
Definition onerror (h : state) : state := {|
  socket := socket h;
  isConnected := false;
  messages := messages h;
  roomUsers := roomUsers h;
  isReconnecting := isReconnecting h;
  reconnectAttempts := reconnectAttempts h;
  created := created h;
  sent := sent h;
  timers := timers h
|}.

(** A call of [close(code, reason)] on a socket. *)
Record close_call : Type := {
  target : ws;
  code : Z;
  reason : string
}.

(** The hook's state together with the [close] calls it has made. *)
Record instance : Type := {
  cells : state;
  closing : list close_call
}.

Definition start : instance := {| cells := init; closing := [] |}.

(** [setSocket(null); setIsConnected(false)]. *)
Definition cleared (h : state) : state := {|
  socket := None;
  isConnected := false;
  messages := messages h;
  roomUsers := roomUsers h;
  isReconnecting := isReconnecting h;
  reconnectAttempts := reconnectAttempts h;
  created := created h;
  sent := sent h;
  timers := timers h
|}.

(** [disconnect] as built by a render in which the socket cell read
    [captured]: the callback closes over that value. *)
Definition disconnect_of (captured : option ws) (i : instance) : instance :=
  match captured with
  | Some w =>
      {| cells := cleared (cells i);
         closing := closing i
                    ++ [{| target := w; code := 1000;
                           reason := "User disconnected" |}] |}
  | None => i
  end.

(** [disconnect] as returned by the current render. *)
Definition disconnect (i : instance) : instance :=
  disconnect_of (socket (cells i)) i.

(** The clean-up of the second effect, built by a render in which the
    socket cell read [captured]. *)
Definition unmount_of (captured : option ws) (i : instance) : instance :=
  match captured with
  | Some w =>
      {| cells := cells i;
         closing := closing i
                    ++ [{| target := w; code := 1000;
                           reason := "Component unmounted" |}] |}
  | None => i
  end.

Definition on_cells (f : state -> state) (i : instance) : instance :=
  {| cells := f (cells i); closing := closing i |}.

(** What can happen to a mounted hook, one handler at a time. *)
Inductive action : Type :=
| DoConnect
| SocketOpen (w : ws)
| SocketClose (code : Z)
| SocketError
| Frame (c : clock) (parsed : option obj)
| SendMessage (r : readyState) (c : clock) (content : value)
| SendTyping (r : readyState) (isTyping : value)
| Disconnect.

Definition act (p : props) (i : instance) (a : action) : instance :=
  match a with
  | DoConnect => on_cells (fun h => fst (connect p h)) i
  | SocketOpen w => on_cells (onopen p w) i
  | SocketClose code => on_cells (onclose code) i
  | SocketError => on_cells onerror i
  | Frame c parsed => on_cells (onmessage c parsed) i
  | SendMessage r c content =>
      on_cells (fun h => snd (sendMessage r c content h)) i
  | SendTyping r v => on_cells (fun h => snd (sendTyping r v h)) i
  | Disconnect => disconnect i
  end.

Definition acts (p : props) (l : list action) (i : instance) : instance :=
  fold_left (act p) l i.

(** The shapes of frame the hook builds. *)
Definition hook_frame (p : props) (frame : obj) : Prop :=
  frame = JSON_stringify (join_frame p)
  \/ (exists c content, frame = JSON_stringify (chat_frame c content))
  \/ (exists v, frame = JSON_stringify (typing_frame v)).

(** The delays [2000 * n] for the attempts 1 to 5. *)
Definition delays : list Z := [2000; 4000; 6000; 8000; 10000].

(** [Object.is] on the values of the socket cell. *)
Definition same_socket (a b : option ws) : bool :=
  match a, b with
  | None, None => true
  | Some x, Some y => Nat.eqb x y
  | _, _ => false
  end.

(** [Object.is] on the hook's three arguments, as they decide whether
    [connect] is rebuilt. *)
Definition same_args (p q : props) : bool :=
  strict_eq (roomId p) (roomId q)
  && strict_eq (userId p) (userId q)
  && strict_eq (userLanguage p) (userLanguage q).

(** A mounted hook: its state, and what the render whose effects ran last
    had read ([None] before the first commit). *)
Record mounted : Type := {
  inst : instance;
  seen : option (props * option ws)
}.

(** The effects of one commit.  The first effect depends on [connect]
    (rebuilt when an argument changes) and on [disconnect] (rebuilt when
    the socket cell changes); the second depends on the socket cell.  When
    a dependency has changed, the clean-ups built by the earlier render run,
    then the first effect calls [connect]. *)
Definition commit (p : props) (m : mounted) : mounted :=
  let current := socket (cells (inst m)) in
  match seen m with
  | None =>
      {| inst := on_cells (fun h => fst (connect p h)) (inst m);
         seen := Some (p, current) |}
  | Some (q, old) =>
      if same_args q p && same_socket old current then m
      else
        let i1 := disconnect_of old (inst m) in
        let i2 := if same_socket old current then i1
                  else unmount_of old i1 in
        {| inst := on_cells (fun h => fst (connect p h)) i2;
           seen := Some (p, current) |}
  end.

Definition commits (p : props) (n : nat) (m : mounted) : mounted :=
  Nat.iter n (commit p) m.

(** The socket constructed before the [n]-th one counted from [base], if
    any. *)
Definition before (base n : nat) : option ws :=
  match n with O => None | S k => Some (base + k)%nat end.

(** A hook that is about to connect for the first time: no socket yet, and
    either not mounted yet or mounted with other arguments (as the pages
    do, which pass a null room until the user has joined). *)
Definition fresh (p : props) (m : mounted) : Prop :=
  socket (cells (inst m)) = None
  /\ (seen m = None
      \/ exists q, seen m = Some (q, None) /\ same_args q p = false).

(** The hook with the browser's side of its sockets: the readyState of
    every socket constructed, by number. *)
Record world : Type := {
  hooked : mounted;
  ready : list readyState
}.

Definition ready_of (k : ws) (w : world) : readyState :=
  nth k (ready w) CLOSED.

Fixpoint put (k : nat) (r : readyState) (l : list readyState)
  : list readyState :=
  match l, k with
  | [], _ => []
  | _ :: rest, O => r :: rest
  | x :: rest, S k' => x :: put k' r rest
  end.

(** [close()] on socket [k]: a socket that is CONNECTING or OPEN starts
    closing. *)
Definition close_one (l : list readyState) (k : close_call)
  : list readyState :=
  match nth (target k) l CLOSED with
  | CONNECTING | OPEN => put (target k) CLOSING l
  | CLOSING | CLOSED => l
  end.

(** A commit seen from the browser: the sockets closed by the clean-ups
    start closing, the socket constructed by [connect] is CONNECTING. *)
Definition world_commit (p : props) (w : world) : world :=
  let m := commit p (hooked w) in
  let closed_now :=
    skipn (List.length (closing (inst (hooked w)))) (closing (inst m)) in
  {| hooked := m;
     ready := fold_left close_one closed_now (ready w)
              ++ repeat CONNECTING
                   (created (cells (inst m))
                    - created (cells (inst (hooked w)))) |}.

(** The open event of socket [k], which only a CONNECTING socket has: the
    socket is OPEN and its [onopen] runs. *)
Definition world_opens (p : props) (k : ws) (w : world) : world :=
  match ready_of k w with
  | CONNECTING =>
      {| hooked := {| inst := on_cells (onopen p k) (inst (hooked w));
                      seen := seen (hooked w) |};
         ready := put k OPEN (ready w) |}
  | OPEN | CLOSING | CLOSED => w
  end.

(** A hook that has not been mounted, and no socket. *)
Definition nothing : world :=
  {| hooked := {| inst := start; seen := None |}; ready := [] |}.

End Lifecycle.

(* ------------------------------------------------------------------ *)
(** ** The rest of MultiLanguageDashboard: languages, joining, speakers *)
(* ------------------------------------------------------------------ *)

Module Languages.

Record language : Type := {
  code : string;
  name : string;
  flag : string
}.

Definition lookup (table : list language) (v : value) : option language :=
  find (fun lang => strict_eq (VStr (code lang)) v) table.

(** [TABLE.find(lang => lang.code === code)?.name || code]. *)
Definition name_in (table : list language) (v : value) : value :=
  or_else (match lookup table v with
           | Some lang => VStr (name lang)
           | None => VUndefined
           end) v.

(** [TABLE.find(lang => lang.code === code)?.flag || '🌐']. *)
Definition flag_in (table : list language) (v : value) : value :=
  or_else (match lookup table v with
           | Some lang => VStr (flag lang)
           | None => VUndefined
           end) (VStr "🌐").

(** The ten entries both pages list, in order. *)
Definition common : list language :=
  [ {| code := "en"; name := "English"; flag := "🇺🇸" |};
    {| code := "es"; name := "Spanish"; flag := "🇪🇸" |};
    {| code := "fr"; name := "French"; flag := "🇫🇷" |};
    {| code := "de"; name := "German"; flag := "🇩🇪" |};
    {| code := "it"; name := "Italian"; flag := "🇮🇹" |};
    {| code := "pt"; name := "Portuguese"; flag := "🇵🇹" |};
    {| code := "ru"; name := "Russian"; flag := "🇷🇺" |};
    {| code := "zh"; name := "Chinese"; flag := "🇨🇳" |};
    {| code := "ja"; name := "Japanese"; flag := "🇯🇵" |};
    {| code := "ko"; name := "Korean"; flag := "🇰🇷" |} ].

End Languages.

Module Base36.

Definition digit (d : Z) : ascii :=
  if d <? 10 then ascii_of_nat (48 + Z.to_nat d)
  else ascii_of_nat (87 + Z.to_nat d).

Fixpoint digits (fuel : nat) (n : Z) (acc : string) : string :=
  match fuel with
  | O => acc
  | S fuel' =>
      let acc' := String (digit (n mod 36)) acc in
      if n / 36 =? 0 then acc' else digits fuel' (n / 36) acc'
  end.

(** [n.toString(36)] for an integer [n]. *)
Definition toString (n : Z) : string :=
  if n <? 0
  then String "-" (digits (S (Z.to_nat (Z.log2 (- n)))) (- n) "")
  else digits (S (Z.to_nat (Z.log2 n))) n "".

End Base36.

Module Setup.

Import Languages.

(** The table of MultiLanguageDashboard. *)
Definition LANGUAGES : list language :=
  common
  ++ [ {| code := "ar"; name := "Arabic"; flag := "🇸🇦" |};
       {| code := "hi"; name := "Hindi"; flag := "🇮🇳" |};
       {| code := "ur"; name := "Urdu"; flag := "🇵🇰" |} ].

Definition getLanguageName : value -> value := name_in LANGUAGES.
Definition getLanguageFlag : value -> value := flag_in LANGUAGES.

(** The cells of the component that joining and the roster touch, next to
    those of [Dashboard.state]. *)
Record state : Type := {
  page : Dashboard.state;
  roomCode : string;
  userLanguage : string;
  listenLanguage : string;
  showLanguageSetup : bool;
  speakers : list obj
}.

(** [addNotification(n)]. *)
Definition addNotification (n : obj) (s : state) : state := {|
  page := {| Dashboard.messages := Dashboard.messages (page s);
             Dashboard.isInRoom := Dashboard.isInRoom (page s);
             Dashboard.notifications := Dashboard.notifications (page s) ++ [n] |};
  roomCode := roomCode s;
  userLanguage := userLanguage s;
  listenLanguage := listenLanguage s;
  showLanguageSetup := showLanguageSetup s;
  speakers := speakers s
|}.

Definition toast (kind : string) (title : option string) (message : string)
  : obj :=
  [("type", VStr kind)]
  ++ match title with Some t => [("title", VStr t)] | None => [] end
  ++ [("message", VStr message);
      ("duration", VNum (inject_Z 3000));
      ("autoDismiss", VBool true)].

(** [setupLanguages()]. *)
Definition setupLanguages (s : state) : state :=
  if negb (truthy (VStr (userLanguage s)))
     || negb (truthy (VStr (listenLanguage s)))
  then
    addNotification
      (toast "error" None
         "Please select both your speaking and listening languages") s
  else
    addNotification
      (toast "success" None
         ("Languages set: Speaking "
          ++ Dashboard.text_of (getLanguageName (VStr (userLanguage s)))
          ++ ", Listening "
          ++ Dashboard.text_of (getLanguageName (VStr (listenLanguage s)))))
      {| page := page s;
         roomCode := roomCode s;
         userLanguage := userLanguage s;
         listenLanguage := listenLanguage s;
         showLanguageSetup := false;
         speakers := speakers s |}.

(** [joinRoom()], called at the time [now].  The function reads the cells
    of the render it was built in: the notification names the room code of
    that render, also when a new one has just been set. *)
Definition joinRoom (now : Z) (s : state) : state :=
  let s1 :=
    if trim_is_empty (roomCode s)
    then {| page := page s;
            roomCode := "room-" ++ Base36.toString now;
            userLanguage := userLanguage s;
            listenLanguage := listenLanguage s;
            showLanguageSetup := showLanguageSetup s;
            speakers := speakers s |}
    else s in
  if negb (truthy (VStr (userLanguage s)))
  then
    addNotification
      (toast "error" (Some "Language Required")
         "Please select your language first") s1
  else
    addNotification
      (toast "success" (Some "Joined Room")
         ("Connected to room: " ++ roomCode s))
      {| page := {| Dashboard.messages := Dashboard.messages (page s1);
                    Dashboard.isInRoom := true;
                    Dashboard.notifications := Dashboard.notifications (page s1) |};
         roomCode := roomCode s1;
         userLanguage := userLanguage s1;
         listenLanguage := listenLanguage s1;
         showLanguageSetup := false;
         speakers := speakers s1 |}.

(** The button of the set-up screen: [setupLanguages(); joinRoom();]. *)
Definition startChat (now : Z) (s : state) : state :=
  joinRoom now (setupLanguages s).

(** The arguments the component hands to the hook. *)
Definition hook_props (user : option string) (s : state) : Hook.props :=
  {| Hook.roomId := if Dashboard.isInRoom (page s) then VStr (roomCode s)
                    else VNull;
     Hook.userId := Dashboard.me user;
     Hook.userLanguage := VStr (userLanguage s) |}.

(** The callback of [roomUsers.map] in the third effect. *)
Definition speaker (u : obj) : obj :=
  [("id", get "user_id" u);
   ("name", get "user_id" u);
   ("language", get "language" u);
   ("isActive", VBool true)].

(** The third effect, run when the hook's [roomUsers] has changed. *)
Definition speakers_effect (roomUsers : list obj) (s : state) : state :=
  match roomUsers with
  | [] => s
  | _ :: _ =>
      {| page := page s;
         roomCode := roomCode s;
         userLanguage := userLanguage s;
         listenLanguage := listenLanguage s;
         showLanguageSetup := showLanguageSetup s;
         speakers := map speaker roomUsers |}
  end.

(** The head count of the header: [speakers.length + 1]. *)
Definition head_count (s : state) : nat := List.length (speakers s) + 1.

(** The only view the component can return. *)
Inductive view : Type := SetupScreen.

(** What rendering the component comes to.  With the set-up screen hidden
    the component builds the room view, in which it passes [latency] and
    [reconnectAttempts] to ConnectionStatus; neither identifier is declared
    in the component or its module, so reading them throws
    ReferenceError. *)
Definition render (s : state) : Hook.completion view :=
  if showLanguageSetup s then Hook.Returns SetupScreen
  else Hook.Throws "ReferenceError".

End Setup.

(* ------------------------------------------------------------------ *)
(** ** The rest of SimpleMultiLanguageDashboard *)
(* ------------------------------------------------------------------ *)

Module SimplePage.

Import Languages.

(** The table of SimpleMultiLanguageDashboard. *)
Definition LANGUAGES : list language := common.

Definition getLanguageName : value -> value := name_in LANGUAGES.
Definition getLanguageFlag : value -> value := flag_in LANGUAGES.

Record state : Type := {
  roomId : string;
  userId : string;
  userLanguage : string;
  isSetup : bool;
  messageText : string
}.

(** [handleJoinRoom()]. *)
Definition handleJoinRoom (s : state) : state :=
  if negb (truthy (VStr (roomId s))) || negb (truthy (VStr (userId s)))
     || negb (truthy (VStr (userLanguage s)))
  then s
  else {| roomId := roomId s;
          userId := userId s;
          userLanguage := userLanguage s;
          isSetup := true;
          messageText := messageText s |}.

(** The arguments the component hands to the hook. *)
Definition hook_props (s : state) : Hook.props :=
  {| Hook.roomId := if isSetup s then VStr (roomId s) else VNull;
     Hook.userId := VStr (userId s);
     Hook.userLanguage := VStr (userLanguage s) |}.

(** [handleSendMessage(e)]: the answer of [sendMessage] is not looked at;
    when [sendMessage] throws, the input is not emptied. *)
Definition handleSendMessage (r : Hook.readyState) (c : Hook.clock)
  (sh : state * Hook.state)
  : Hook.completion unit * (state * Hook.state) :=
  let (s, h) := sh in
  if trim_is_empty (messageText s) then (Hook.Returns tt, (s, h))
  else
    let (done, h') := Hook.sendMessage r c (VStr (messageText s)) h in
    match done with
    | Hook.Throws name => (Hook.Throws name, (s, h'))
    | Hook.Returns _ =>
        (Hook.Returns tt,
         ({| roomId := roomId s;
             userId := userId s;
             userLanguage := userLanguage s;
             isSetup := isSetup s;
             messageText := "" |}, h'))
    end.

End SimplePage.

(* ------------------------------------------------------------------ *)
(** ** utils/helpers.js *)
(* ------------------------------------------------------------------ *)

Module Utils.

(** A JavaScript string as the sequence of its UTF-16 code units, which is
    what [length], [substring], [split('')] and [charCodeAt] count in. *)
Definition text : Type := list Z.

(** The three code units of ['...']. *)
Definition dots : text := [46; 46; 46].

(** [utils.truncate(text, maxLength)] for an integer [maxLength];
    [substring(0, n)] takes nothing for a negative [n]. *)
Definition truncate (t : text) (maxLength : Z) : text :=
  if Z.of_nat (List.length t) <=? maxLength then t
  else firstn (Z.to_nat maxLength) t ++ dots.

(** The default of the second parameter. *)
Definition truncate_default (t : text) : text := truncate t 100.

(** [ToInt32]: the signed 32-bit integer congruent to [z]. *)
Definition ToInt32 (z : Z) : Z := (z + 2 ^ 31) mod 2 ^ 32 - 2 ^ 31.

(** [a << 5]. *)
Definition shl5 (a : Z) : Z := ToInt32 (ToInt32 a * 32).

(** The callback of [reduce] in [getSpeakerColor], [b] being the code unit
    [b.charCodeAt(0)]:
    [a = ((a << 5) - a) + b.charCodeAt(0); return a & a]. *)
Definition mix (a : Z) (b : Z) : Z := ToInt32 ((shl5 a - a) + b).

Definition hash (speakerId : text) : Z := fold_left mix speakerId 0.

Definition colors : list string :=
  ["from-blue-600 to-blue-700";
   "from-purple-600 to-purple-700";
   "from-green-600 to-green-700";
   "from-red-600 to-red-700";
   "from-yellow-600 to-yellow-700";
   "from-indigo-600 to-indigo-700"].

(** [utils.getSpeakerColor(speakerId)]: [colors[Math.abs(hash) % 6]], which
    is undefined when there is no such element. *)
Definition getSpeakerColor (speakerId : text) : option string :=
  nth_error colors
    (Z.to_nat (Z.abs (hash speakerId) mod Z.of_nat (List.length colors))).

(** The polynomial of base 31 over the code units, without wrap-around. *)
Definition polynomial (speakerId : text) : Z :=
  fold_left (fun a b => 31 * a + b) speakerId 0.

End Utils.

(* ------------------------------------------------------------------ *)
(** ** utils/websocket.js: class VoiceWebSocket *)
(* ------------------------------------------------------------------ *)

Module VoiceWebSocket.

(** The fields of the object the methods touch, and what it did to the
    outside: sockets constructed, frames handed to [send], sockets on which
    [close] was called, delays handed to [setTimeout]. *)
Record state : Type := {
  ws : option nat;
  reconnectAttempts : Z;
  created : nat;
  sent : list (nat * obj);
  closed : list nat;
  timers : list Z
}.

Definition maxReconnectAttempts : Z := 5.
Definition reconnectInterval : Z := 1000.

(** The state after the constructor. *)
Definition init : state := {|
  ws := None; reconnectAttempts := 0; created := 0;
  sent := []; closed := []; timers := []
|}.

(** [connect()]: a socket is constructed and kept in [this.ws]. *)
Definition connect (s : state) : state := {|
  ws := Some (created s);
  reconnectAttempts := reconnectAttempts s;
  created := S (created s);
  sent := sent s;
  closed := closed s;
  timers := timers s
|}.

(** [send(data)]; [open] is [this.ws.readyState === WebSocket.OPEN] at the
    time of the call. *)
Definition send (open : bool) (data : obj) (s : state) : state :=
  match ws s with
  | Some w =>
      if open
      then {| ws := ws s;
              reconnectAttempts := reconnectAttempts s;
              created := created s;
              sent := sent s ++ [(w, JSON_stringify data)];
              closed := closed s;
              timers := timers s |}
      else s
  | None => s
  end.

(** [this.ws.onopen], with the stored API key. *)
Definition onopen (open : bool) (apiKey : value) (s : state) : state :=
  send open [("type", VStr "auth"); ("api_key", apiKey)]
    {| ws := ws s;
       reconnectAttempts := 0;
       created := created s;
       sent := sent s;
       closed := closed s;
       timers := timers s |}.

(** [this.ws.onclose]: whatever the code of the close event. *)
Definition onclose (s : state) : state :=
  if reconnectAttempts s <? maxReconnectAttempts
  then {| ws := ws s;
          reconnectAttempts := reconnectAttempts s;
          created := created s;
          sent := sent s;
          closed := closed s;
          timers := timers s
                    ++ [reconnectInterval * reconnectAttempts s] |}
  else s.

(** The callback handed to [setTimeout] by [onclose]. *)
Definition retry (s : state) : state :=
  connect {| ws := ws s;
             reconnectAttempts := reconnectAttempts s + 1;
             created := created s;
             sent := sent s;
             closed := closed s;
             timers := timers s |}.

(** [disconnect()]. *)
Definition disconnect (s : state) : state :=
  match ws s with
  | Some w =>
      {| ws := None;
         reconnectAttempts := reconnectAttempts s;
         created := created s;
         sent := sent s;
         closed := closed s ++ [w];
         timers := timers s |}
  | None => s
  end.

(** The socket is lost: the close event arrives and, when it has scheduled
    a retry, the timer fires. *)
Definition lost (s : state) : state :=
  if reconnectAttempts s <? maxReconnectAttempts
  then retry (onclose s)
  else onclose s.

End VoiceWebSocket.

(* ------------------------------------------------------------------ *)
(** ** components/ChatWindow.jsx, components/VoiceRecorder.jsx *)
(* ------------------------------------------------------------------ *)

Module ChatWindow.

(** [handleSubmit(e)]: the input and what [onSendMessage] acts on.  When
    [onSendMessage] throws, the input is not emptied. *)
Definition handleSubmit {X : Type} (isConnected : bool)
  (onSendMessage : string -> X -> Hook.completion unit * X)
  (inputText : string) (x : X) : Hook.completion unit * (string * X) :=
  if negb (trim_is_empty inputText) && isConnected
  then
    let (done, x') := onSendMessage inputText x in
    match done with
    | Hook.Throws name => (Hook.Throws name, (inputText, x'))
    | Hook.Returns _ => (Hook.Returns tt, (""%string, x'))
    end
  else (Hook.Returns tt, (inputText, x)).

End ChatWindow.

Module VoiceRecorder.

(** [n.toString()] for a natural number. *)
Definition toString (n : nat) : string :=
  NilEmpty.string_of_uint (Nat.to_uint n).

Fixpoint zeros (n : nat) : string :=
  match n with
  | O => ""%string
  | S k => String "0" (zeros k)
  end.

(** [s.padStart(2, '0')]. *)
Definition padStart2 (s : string) : string :=
  (zeros (2 - String.length s) ++ s)%string.

(** [formatTime(seconds)] for a whole number of seconds. *)
Definition formatTime (seconds : nat) : string :=
  let mins := (seconds / 60)%nat in
  let secs := (seconds mod 60)%nat in
  (toString mins ++ ":" ++ padStart2 (toString secs))%string.

(** The decimal digit [d]. *)
Definition digit (d : nat) : ascii := ascii_of_nat (48 + d).

End VoiceRecorder.

(* ------------------------------------------------------------------ *)
(** ** hooks/useSettings.js *)
(* ------------------------------------------------------------------ *)

Module Settings.

(** An object whose members are objects: category, then key. *)
Definition settings : Type := list (string * obj).

Fixpoint lookup (k : string) (o : settings) : option obj :=
  match o with
  | [] => None
  | (k', v) :: rest => if String.eqb k k' then Some v else lookup k rest
  end.

(** Assignment of one member: a present key keeps its place, a new one
    goes to the end. *)
Fixpoint assign (k : string) (v : obj) (o : settings) : settings :=
  match o with
  | [] => [(k, v)]
  | (k', v') :: rest =>
      if String.eqb k k' then (k', v) :: rest
      else (k', v') :: assign k v rest
  end.

(** [{ ...a, ...b }]. *)
Definition spread (a b : settings) : settings :=
  fold_left (fun acc kv => assign (fst kv) (snd kv) acc) b a.

Definition defaultSettings : settings :=
  [("general", [("theme", VStr "dark"); ("language", VStr "en");
                ("autoSave", VBool true)]);
   ("audio", [("outputVolume", VNum (inject_Z 80));
              ("inputSensitivity", VNum (inject_Z 50));
              ("noiseReduction", VBool true);
              ("echoCancellation", VBool true)]);
   ("voice", [("model", VStr "default"); ("speed", VNum (inject_Z 100));
              ("autoPlay", VBool true); ("voiceActivation", VBool false)]);
   ("privacy", [("storeLocally", VBool true); ("analytics", VBool false);
                ("dataRetention", VNum (inject_Z 30))])].

(** [JSON.parse(JSON.stringify(x))] for settings: what the text of [x]
    reads back as. *)
Definition json (x : settings) : settings :=
  map (fun kv => (fst kv, JSON_stringify (snd kv))) x.

(** The hook's cell and the item [multivoice_settings] of the local
    storage.  The item is kept as the object its JSON text reads back as;
    [None] is no item, or a text that is empty or does not parse. *)
Record state : Type := {
  current : settings;
  stored : option settings
}.

(** The state of a hook that mounts over a storage. *)
Definition mount (storage : option settings) : state :=
  {| current := defaultSettings; stored := storage |}.

(** The effect run once after mounting. *)
Definition load_effect (s : state) : state :=
  match stored s with
  | Some parsed =>
      {| current := spread (current s) parsed; stored := stored s |}
  | None => s
  end.

(** [updateSettings(newSettings)]. *)
Definition updateSettings (newSettings : settings) (s : state) : state :=
  {| current := newSettings; stored := Some (json newSettings) |}.

(** [resetSettings()]. *)
Definition resetSettings (s : state) : state :=
  {| current := defaultSettings; stored := None |}.

End Settings.

(* ------------------------------------------------------------------ *)
(** ** The dashboard's list over time *)
(* ------------------------------------------------------------------ *)

Module Merging.

(** The page with its hook, and how many messages the hook held when the
    second effect last ran (none at the mount). *)
Record page : Type := {
  shown : Dashboard.state;
  hook : Hook.state;
  merged : nat
}.

(** A frame arrives and the hook handles it; or the page renders and
    commits: the second effect runs when [wsMessages] is another list than
    at its last run, which for a list that only grows is when it is
    longer. *)
Inductive event : Type :=
| Arrives (c : Hook.clock) (parsed : option obj)
| Renders.

Definition step (user : option string) (tags : nat -> string)
  (s : page) (e : event) : result page :=
  match e with
  | Arrives c parsed =>
      Ok {| shown := shown s;
            hook := Hook.onmessage c parsed (hook s);
            merged := merged s |}
  | Renders =>
      if Nat.eqb (List.length (Hook.messages (hook s))) (merged s) then Ok s
      else
        d <- Dashboard.sync_effect user tags (Hook.messages (hook s)) (shown s) ;;
        Ok {| shown := d;
              hook := hook s;
              merged := List.length (Hook.messages (hook s)) |}
  end.

Fixpoint run (user : option string) (tags : nat -> string)
  (events : list event) (s : page) : result page :=
  match events with
  | [] => Ok s
  | e :: rest => s' <- step user tags s e ;; run user tags rest s'
  end.

(** A clock after 1970 and a random number that is not negative. *)
Definition real (c : Hook.clock) : Prop :=
  0 < Hook.now c /\ (0 <= Hook.random c)%Q.

Definition real_clocks (events : list event) : Prop :=
  Forall (fun e => match e with
                   | Arrives c _ => real c
                   | Renders => True
                   end) events.

(** An entry whose [id] is a number other than 0, as
    [Date.now() + Math.random()] is on such a clock. *)
Definition numbered (m : obj) : Prop :=
  exists q, get "id" m = VNum q /\ truthy (VNum q) = true.

(** What holds of the page between events: the effect has merged a prefix
    of the hook's list, every entry of the hook has a number for its id, and
    the page shows the welcome message before the first merge and
    afterwards the merged prefix, formatted. *)
Definition settled (user : option string) (stamp : string)
  (tags : nat -> string) (s : page) : Prop :=
  (merged s <= List.length (Hook.messages (hook s)))%nat
  /\ Forall numbered (Hook.messages (hook s))
  /\ Dashboard.messages (shown s)
     = (if Nat.eqb (merged s) 0 then Dashboard.welcome user stamp
        else Dashboard.format_all user tags 0
               (firstn (merged s) (Hook.messages (hook s)))).

End Merging.

(* ------------------------------------------------------------------ *)
(** ** Strict equality and list facts *)
(* ------------------------------------------------------------------ *)

Section StrictEq.

Lemma strict_eq_refl (v : value) : strict_eq v v = true.
Proof.
  destruct v as [| |b|q|s]; simpl; trivial.
  - now destruct b.
  - apply Qeq_bool_iff. reflexivity.
  - apply String.eqb_refl.
Qed.

Lemma strict_eq_sym (a b : value) : strict_eq a b = strict_eq b a.
Proof.
  destruct a as [| |x|x|x], b as [| |y|y|y]; simpl; trivial.
  - now destruct x, y.
  - destruct (Qeq_bool x y) eqn:E, (Qeq_bool y x) eqn:F; trivial.
    + apply Qeq_bool_iff in E. symmetry in E.
      apply Qeq_bool_iff in E. congruence.
    + apply Qeq_bool_iff in F. symmetry in F.
      apply Qeq_bool_iff in F. congruence.
  - apply String.eqb_sym.
Qed.

Lemma find_snoc {A} (f : A -> bool) (l : list A) (x : A) :
  find f (l ++ [x]) =
  match find f l with
  | Some y => Some y
  | None => if f x then Some x else None
  end.
Proof.
  induction l as [|a l IH]; simpl.
  - reflexivity.
  - destruct (f a); [reflexivity | exact IH].
Qed.

Lemma find_none_existsb {A} (f : A -> bool) (l : list A) :
  find f l = None -> existsb f l = false.
Proof.
  induction l as [|a l IH]; simpl; trivial.
  destruct (f a); [discriminate | exact IH].
Qed.

Lemma filter_twice {A} (f : A -> bool) (l : list A) :
  filter f (filter f l) = filter f l.
Proof.
  induction l as [|a l IH]; simpl; trivial.
  destruct (f a) eqn:E; simpl; rewrite ?E, IH; reflexivity.
Qed.

Lemma forallb_filter_same {A} (f : A -> bool) (l : list A) :
  forallb f (filter f l) = true.
Proof.
  induction l as [|a l IH]; simpl; trivial.
  destruct (f a) eqn:E; simpl; rewrite ?E; exact IH.
Qed.

End StrictEq.

(* ------------------------------------------------------------------ *)
(** ** The roster *)
(* ------------------------------------------------------------------ *)

Section Roster.

Import Hook.

Lemma onmessage_user_joined (c : clock) (d : obj) (h : state) :
  get "type" d = VStr "user_joined" ->
  roomUsers (onmessage c (Some d) h) = join_roster d (roomUsers h).
Proof. intros T. unfold onmessage. rewrite T. reflexivity. Qed.

Lemma onmessage_user_left (c : clock) (d : obj) (h : state) :
  get "type" d = VStr "user_left" ->
  roomUsers (onmessage c (Some d) h) = leave_roster d (roomUsers h).
Proof. intros T. unfold onmessage. rewrite T. reflexivity. Qed.

Lemma same_user_joined (d : obj) :
  same_user (get "user_id" d)
    [("user_id", get "user_id" d); ("language", get "language" d)] = true.
Proof. unfold same_user. simpl. apply strict_eq_refl. Qed.

Lemma join_roster_idempotent (d : obj) (prev : list obj) :
  join_roster d (join_roster d prev) = join_roster d prev.
Proof.
  unfold join_roster at 2 3.
  destruct (find (same_user (get "user_id" d)) prev) eqn:F.
  - unfold join_roster. rewrite F. reflexivity.
  - unfold join_roster. rewrite find_snoc, F, same_user_joined. reflexivity.
Qed.

Lemma same_user_sym (a b : obj) :
  same_user (get "user_id" a) b = same_user (get "user_id" b) a.
Proof. unfold same_user. apply strict_eq_sym. Qed.

Lemma unique_ids_snoc (roster : list obj) (e : obj) :
  unique_ids (roster ++ [e]) =
  unique_ids roster && negb (existsb (same_user (get "user_id" e)) roster).
Proof.
  induction roster as [|u rest IH].
  - reflexivity.
  - cbn [app unique_ids existsb].
    rewrite existsb_app, IH. cbn [existsb].
    rewrite (same_user_sym e u).
    generalize (existsb (same_user (get "user_id" u)) rest) as b1.
    generalize (same_user (get "user_id" u) e) as b2.
    generalize (unique_ids rest) as b3.
    generalize (existsb (same_user (get "user_id" e)) rest) as b4.
    intros [] [] [] []; reflexivity.
Qed.

Lemma join_roster_unique (d : obj) (prev : list obj) :
  unique_ids prev = true -> unique_ids (join_roster d prev) = true.
Proof.
  intros U. unfold join_roster.
  destruct (find (same_user (get "user_id" d)) prev) eqn:F; trivial.
  rewrite unique_ids_snoc, U. simpl.
  now rewrite (find_none_existsb _ _ F).
Qed.

(** C7.  A [user_joined] frame handled twice leaves the roster that handling
    it once leaves, and a roster without two entries of one [user_id] stays
    so. *)
Theorem user_joined_idempotent_unique
  (c1 c2 : clock) (d : obj) (h : state) :
  get "type" d = VStr "user_joined" ->
  roomUsers (onmessage c2 (Some d) (onmessage c1 (Some d) h))
  = roomUsers (onmessage c1 (Some d) h)
  /\ (unique_ids (roomUsers h) = true ->
      unique_ids (roomUsers (onmessage c1 (Some d) h)) = true).
Proof.
  intros T. rewrite !onmessage_user_joined by exact T. split.
  - apply join_roster_idempotent.
  - apply join_roster_unique.
Qed.

(** C8.  After a [user_left] frame for [p] no entry of the roster has
    [user_id] [p], and the entries with another [user_id] are those of
    before, in their order. *)
Theorem user_left_removes_exactly (c : clock) (d : obj) (h : state) :
  get "type" d = VStr "user_left" ->
  let other := fun u => negb (same_user (get "user_id" d) u) in
  let after := roomUsers (onmessage c (Some d) h) in
  forallb other after = true
  /\ filter other after = filter other (roomUsers h).
Proof.
  intros T other after. subst after.
  rewrite onmessage_user_left by exact T.
  unfold leave_roster. fold other. split.
  - apply forallb_filter_same.
  - apply filter_twice.
Qed.

End Roster.

Lemma user_joined_idempotent_unique_witness :
  get "type" Sample.bob_joined = VStr "user_joined"
  /\ Hook.roomUsers
       (Hook.onmessage Sample.t1 (Some Sample.bob_joined)
          (Hook.onmessage Sample.t0 (Some Sample.bob_joined) Sample.online))
     = Hook.roomUsers
         (Hook.onmessage Sample.t0 (Some Sample.bob_joined) Sample.online)
  /\ Hook.unique_ids
       (Hook.roomUsers
          (Hook.onmessage Sample.t0 (Some Sample.bob_joined) Sample.online))
     = true.
Proof.
  split; [reflexivity|].
  destruct (user_joined_idempotent_unique Sample.t0 Sample.t1
              Sample.bob_joined Sample.online eq_refl) as [I U].
  split; [exact I | apply U; reflexivity].
Defined.

Lemma user_left_removes_exactly_witness :
  get "type" Sample.bob_left = VStr "user_left"
  /\ forallb (fun u => negb (Hook.same_user (VStr "bob") u))
       (Hook.roomUsers
          (Hook.onmessage Sample.t1 (Some Sample.bob_left)
             (Hook.onmessage Sample.t0 (Some Sample.bob_joined)
                Sample.online))) = true.
Proof.
  split; [reflexivity|].
  exact (proj1 (user_left_removes_exactly Sample.t1 Sample.bob_left
                  (Hook.onmessage Sample.t0 (Some Sample.bob_joined)
                     Sample.online) eq_refl)).
Defined.

(* ------------------------------------------------------------------ *)
(** ** Frames written by the hook *)
(* ------------------------------------------------------------------ *)

Section Outbound.

Import Hook.

Lemma written_handed (w : ws) (frame : obj) (h : state) :
  written h (handed w frame h) = [(w, frame)].
Proof.
  unfold written, handed. simpl.
  induction (sent h) as [|x l IH]; simpl; [reflexivity | exact IH].
Qed.

Lemma written_send (r : readyState) (w : ws) (frame : obj) (h : state) :
  written h (snd (send r w frame h)) = [(w, frame)].
Proof. apply written_handed. Qed.

Lemma sendMessage_connected
  (r : readyState) (c : clock) (content : value) (h : state) (w : ws) :
  socket h = Some w ->
  isConnected h = true ->
  sendMessage r c content h
  = (completes r true, handed w (JSON_stringify (chat_frame c content)) h).
Proof.
  intros S C. unfold sendMessage, send. rewrite S, C. now destruct r.
Qed.

Lemma written_nothing (h : state) : written h h = [].
Proof.
  unfold written. induction (sent h) as [|x l IH]; simpl; trivial.
Qed.

Lemma truthy_defined (v : value) : truthy v = true -> is_undefined v = false.
Proof. destruct v; simpl; trivial; discriminate. Qed.

(** C2, as the code has it.  When [connect] has built a socket, its
    [onopen] writes one frame to that socket, with the members [user_id]
    (the participant identifier) and [language], in that order. *)
Theorem onopen_sends_user_id_language (p : props) (h h' : state) (w : ws) :
  connect p h = (h', Some w) ->
  written h' (onopen p w h')
  = [(w, [("user_id", userId p); ("language", userLanguage p)])].
Proof.
  unfold connect.
  destruct (truthy (roomId p)); simpl; [|discriminate].
  destruct (truthy (userId p)) eqn:U; simpl; [|discriminate].
  destruct (truthy (userLanguage p)) eqn:L; simpl; [|discriminate].
  destruct (url_rejected p); [discriminate|].
  intros E. injection E as <- <-.
  unfold onopen, written. simpl.
  unfold JSON_stringify, join_frame. simpl.
  rewrite (truthy_defined _ U), (truthy_defined _ L). simpl.
  induction (sent h) as [|x l IH]; simpl; [reflexivity | exact IH].
Qed.

Lemma onopen_sends_user_id_language_witness :
  connect Sample.alice init = (fst (connect Sample.alice init), Some 0%nat)
  /\ written (fst (connect Sample.alice init)) Sample.online
     = [(0%nat, [("user_id", VStr "alice"); ("language", VStr "en")])].
Proof.
  split; [reflexivity|].
  exact (onopen_sends_user_id_language Sample.alice init
           (fst (connect Sample.alice init)) 0%nat eq_refl).
Defined.

(** C2 fails as stated: the frame written on open has no member
    [participant_id]. *)
Lemma join_frame_has_no_participant_id :
  ~ (exists frame,
        In (0%nat, frame)
          (written (fst (connect Sample.alice init)) Sample.online)
        /\ get "participant_id" frame = userId Sample.alice).
Proof.
  intros [frame [I G]]. cbv in I. destruct I as [I|[]].
  injection I as <-. cbv in G. discriminate.
Qed.

(** C3, as the code has it.  With a socket and [isConnected], sending a
    string hands one frame to the socket, with the members [type],
    [content] and [timestamp] (the client's clock), in that order; the call
    answers true, unless the socket is still CONNECTING and [send] throws. *)
Theorem sendMessage_frame_members
  (r : readyState) (c : clock) (content : string) (h : state) (w : ws) :
  socket h = Some w ->
  isConnected h = true ->
  fst (sendMessage r c (VStr content) h) = completes r true
  /\ written h (snd (sendMessage r c (VStr content) h))
     = [(w, [("type", VStr "chat");
             ("content", VStr content);
             ("timestamp", VStr (iso c))])].
Proof.
  intros S C. rewrite (sendMessage_connected r c _ h w S C).
  split; [reflexivity|]. apply written_handed.
Qed.

Lemma sendMessage_frame_members_witness :
  socket Sample.online = Some 0%nat
  /\ isConnected Sample.online = true
  /\ fst (sendMessage OPEN Sample.t1 (VStr "Hello") Sample.online)
     = Returns true
  /\ written Sample.online
       (snd (sendMessage OPEN Sample.t1 (VStr "Hello") Sample.online))
     = [(0%nat, [("type", VStr "chat");
                 ("content", VStr "Hello");
                 ("timestamp", VStr "2023-11-14T22:13:20.500Z")])].
Proof.
  split; [reflexivity|]. split; [reflexivity|].
  exact (sendMessage_frame_members OPEN Sample.t1 "Hello" Sample.online
           0%nat eq_refl eq_refl).
Defined.

(** C3 fails as stated: the chat frame has a third member, [timestamp]. *)
Lemma chat_frame_carries_timestamp :
  ~ Forall (fun wf => keys (snd wf) = ["type"; "content"])
      (written Sample.online
         (snd (sendMessage OPEN Sample.t1 (VStr "Hello") Sample.online))).
Proof.
  intros F. cbv in F. inversion F as [|x l K _]; subst. discriminate K.
Qed.

(** How [sendMessage] ends, in every state: false and nothing done without
    a socket or without [isConnected]; otherwise one call of [send] on the
    socket of the cell, and true when that call returns. *)
Lemma sendMessage_completion
  (r : readyState) (c : clock) (content : value) (h : state) :
  sendMessage r c content h
  = match socket h with
    | Some w =>
        if isConnected h
        then (completes r true,
              handed w (JSON_stringify (chat_frame c content)) h)
        else (Returns false, h)
    | None => (Returns false, h)
    end.
Proof.
  destruct (socket h) as [w|] eqn:S; [destruct (isConnected h) eqn:C|].
  - now apply sendMessage_connected.
  - unfold sendMessage. now rewrite S, C.
  - unfold sendMessage. now rewrite S.
Qed.

(** C10, on the code.  The hook of alice mounts and commits twice: the
    second commit has put a second socket, still CONNECTING, in the cell.
    Then the first socket opens and sets [isConnected].  There is a socket
    and [isConnected] holds, yet [sendMessage] does not answer true: the
    [send] of the socket in the cell throws InvalidStateError, which nothing
    catches. *)
Theorem sendMessage_throws_while_connecting :
  let w := Lifecycle.world_opens Sample.alice 0%nat
             (Lifecycle.world_commit Sample.alice
                (Lifecycle.world_commit Sample.alice Lifecycle.nothing)) in
  let h := Lifecycle.cells (Lifecycle.inst (Lifecycle.hooked w)) in
  socket h = Some 1%nat
  /\ isConnected h = true
  /\ Lifecycle.ready_of 0%nat w = OPEN
  /\ Lifecycle.ready_of 1%nat w = CONNECTING
  /\ fst (sendMessage (Lifecycle.ready_of 1%nat w) Sample.t1 (VStr "Hello") h)
     = Throws "InvalidStateError"
  /\ fst (sendMessage (Lifecycle.ready_of 1%nat w) Sample.t1 (VStr "Hello") h)
     <> Returns true.
Proof.
  cbv zeta. repeat split; try reflexivity. discriminate.
Qed.

End Outbound.

(* ------------------------------------------------------------------ *)
(** ** Frames stored by the hook *)
(* ------------------------------------------------------------------ *)

Section Inbound.

Import Hook.

Lemma onmessage_message (c : clock) (d : obj) (h : state) :
  get "type" d = VStr "message" ->
  onmessage c (Some d) h
  = setMessages (fun prev => prev ++ [chat_entry c d]) h.
Proof. intros T. unfold onmessage. rewrite T. reflexivity. Qed.

(** C4, as the code has it.  The [message] frames received are stored one
    entry each, at the end of the list and so in the order of arrival; an
    entry keeps the frame's [user_id], [content], [original_content],
    [language] and [is_original], and has no member [sequence]. *)
Theorem messages_stored_in_arrival_order
  (frames : list (clock * obj)) (h : state) :
  Forall (fun cd => get "type" (snd cd) = VStr "message") frames ->
  messages (receive (map (fun cd => (fst cd, Some (snd cd))) frames) h)
  = messages h ++ map (fun cd => chat_entry (fst cd) (snd cd)) frames
  /\ Forall
       (fun cd =>
          let m := chat_entry (fst cd) (snd cd) in
          get "sequence" m = VUndefined
          /\ get "user_id" m = get "user_id" (snd cd)
          /\ get "content" m = get "content" (snd cd)
          /\ get "original_content" m = get "original_content" (snd cd)
          /\ get "language" m = get "language" (snd cd)
          /\ get "is_original" m = get "is_original" (snd cd))
       frames.
Proof.
  intros T. split.
  - revert h.
    induction T as [|[c d] rest Td _ IH]; intros h; cbn [map receive fst snd].
    + now rewrite app_nil_r.
    + cbn [snd] in Td. rewrite (onmessage_message c d h Td), IH.
      cbn [setMessages messages]. now rewrite <- app_assoc.
  - apply Forall_forall. intros [c d] _. simpl. repeat split.
Qed.

Lemma messages_stored_in_arrival_order_witness :
  Forall (fun cd => get "type" (snd cd) = VStr "message")
    [(Sample.t0, Sample.hola); (Sample.t1, Sample.adios)]
  /\ messages
       (receive [(Sample.t0, Some Sample.hola); (Sample.t1, Some Sample.adios)]
          Sample.online)
     = [chat_entry Sample.t0 Sample.hola; chat_entry Sample.t1 Sample.adios].
Proof.
  assert (T : Forall (fun cd => get "type" (snd cd) = VStr "message")
                [(Sample.t0, Sample.hola); (Sample.t1, Sample.adios)])
    by (repeat constructor).
  split; [exact T|].
  exact (proj1 (messages_stored_in_arrival_order
                  [(Sample.t0, Sample.hola); (Sample.t1, Sample.adios)]
                  Sample.online T)).
Defined.

(** C4 fails as stated: the entry stored for a frame with [sequence] 1 has
    no such member. *)
Lemma stored_message_drops_sequence :
  get "sequence" Sample.hola = VNum (inject_Z 1)
  /\ ~ (exists m,
          In m (messages (onmessage Sample.t0 (Some Sample.hola) Sample.online))
          /\ get "sequence" m = get "sequence" Sample.hola).
Proof.
  split; [reflexivity|].
  intros [m [I G]]. cbv in I. destruct I as [I|[]]. subst m.
  cbv in G. discriminate.
Qed.

End Inbound.

(* ------------------------------------------------------------------ *)
(** ** Reconnection *)
(* ------------------------------------------------------------------ *)

Section Reconnect.

Import Hook.

Lemma onclose_clean (h : state) :
  timers (onclose 1000 h) = timers h
  /\ reconnectAttempts (onclose 1000 h) = reconnectAttempts h.
Proof. unfold onclose. simpl. split; reflexivity. Qed.

Lemma closes_schedule (codes : list Z) :
  forall h,
    0 <= reconnectAttempts h <= 5 ->
    timers (closes codes h)
    = timers h
      ++ map (fun n => 2000 * Z.of_nat n)
           (seq (S (Z.to_nat (reconnectAttempts h)))
              (Nat.min (5 - Z.to_nat (reconnectAttempts h))
                 (abnormal codes))).
Proof.
  unfold closes, abnormal.
  induction codes as [|code rest IH]; intros h B.
  - simpl. rewrite Nat.min_0_r. simpl. now rewrite app_nil_r.
  - cbn [fold_left filter].
    destruct (negb (code =? 1000)) eqn:Ab.
    + destruct (reconnectAttempts h <? maxReconnectAttempts) eqn:Lt;
        unfold maxReconnectAttempts in Lt.
      * apply Z.ltb_lt in Lt.
        assert (Hc : onclose code h
                = {| socket := None; isConnected := false;
                     messages := messages h; roomUsers := roomUsers h;
                     isReconnecting := true;
                     reconnectAttempts := reconnectAttempts h + 1;
                     created := created h; sent := sent h;
                     timers := timers h ++ [2000 * (reconnectAttempts h + 1)] |}).
        { unfold onclose, maxReconnectAttempts. rewrite Ab.
          apply Z.ltb_lt in Lt. rewrite Lt. reflexivity. }
        rewrite Hc, IH by (cbn [reconnectAttempts]; lia).
        cbn [timers reconnectAttempts List.length].
        replace (Nat.min (5 - Z.to_nat (reconnectAttempts h))
                   (S (List.length
                         (filter (fun c => negb (c =? 1000)) rest))))
          with (S (Nat.min (5 - Z.to_nat (reconnectAttempts h + 1))
                     (List.length
                        (filter (fun c => negb (c =? 1000)) rest))))
          by lia.
        cbn [seq map]. rewrite <- app_assoc. cbn [app].
        replace (Z.to_nat (reconnectAttempts h + 1))
          with (S (Z.to_nat (reconnectAttempts h))) by lia.
        do 2 f_equal. lia.
      * apply Z.ltb_ge in Lt.
        assert (Hc : timers (onclose code h) = timers h
                     /\ reconnectAttempts (onclose code h)
                        = reconnectAttempts h).
        { unfold onclose, maxReconnectAttempts. rewrite Ab.
          apply Z.ltb_ge in Lt. rewrite Lt. split; reflexivity. }
        destruct Hc as [Ht Ha].
        rewrite IH by (rewrite Ha; lia). rewrite Ht, Ha.
        replace (5 - Z.to_nat (reconnectAttempts h))%nat with 0%nat by lia.
        reflexivity.
    + assert (Hc : timers (onclose code h) = timers h
                   /\ reconnectAttempts (onclose code h)
                      = reconnectAttempts h).
      { unfold onclose. rewrite Ab. split; reflexivity. }
      destruct Hc as [Ht Ha].
      rewrite IH by (rewrite Ha; lia). now rewrite Ht, Ha.
Qed.

(** C9, as the code has it.  A close with code 1000 schedules nothing.  The
    counter of attempts starts anew at every open: of the closes that follow
    an open with no other open in between, the first five that are not
    clean schedule one reconnection each, the n-th of them after 2000*n
    milliseconds, and the later ones schedule none. *)
Theorem reconnect_schedule (p : props) (w : ws) (h : state) (codes : list Z) :
  timers (onclose 1000 h) = timers h
  /\ timers (closes codes (onopen p w h))
     = timers h
       ++ map (fun n => 2000 * Z.of_nat n)
            (seq 1 (Nat.min 5 (abnormal codes))).
Proof.
  split; [apply onclose_clean|].
  rewrite closes_schedule by (simpl; lia). reflexivity.
Qed.

(** C9 fails as stated: a socket that opens and is lost six times has six
    reconnections scheduled, each after 2000 milliseconds. *)
Lemma reconnect_more_than_five_in_total :
  timers (run Sample.alice Sample.flapping init)
  = [2000; 2000; 2000; 2000; 2000; 2000]
  /\ ~ (List.length (timers (run Sample.alice Sample.flapping init)) <= 5)%nat.
Proof.
  split; [reflexivity|]. cbv. lia.
Qed.

End Reconnect.

(* ------------------------------------------------------------------ *)
(** ** The page: sending a text, merging the hook's messages *)
(* ------------------------------------------------------------------ *)

Section Page.

Import Dashboard.

Lemma sendMessage_keeps_messages
  (r : Hook.readyState) (c : Hook.clock) (v : value) (h : Hook.state) :
  Hook.messages (snd (Hook.sendMessage r c v h)) = Hook.messages h.
Proof.
  rewrite sendMessage_completion.
  destruct (Hook.socket h); [destruct (Hook.isConnected h)|]; reflexivity.
Qed.

(** C6, as the code has it.  [sendTextMessage] never appends the text to a
    list of messages, the page's or the hook's, however the call ends: all
    a call that passes its guards does with the text is hand it, as a chat
    frame, to the socket of a connected hook. *)
Theorem sendTextMessage_leaves_messages
  (r : Hook.readyState) (c : Hook.clock) (text : string)
  (d : state) (h : Hook.state) :
  let after := snd (sendTextMessage r c text (d, h)) in
  messages (fst after) = messages d
  /\ Hook.messages (snd after) = Hook.messages h
  /\ Hook.written h (snd after)
     = (if negb (trim_is_empty text) && isInRoom d
        then match Hook.socket h with
             | Some w =>
                 if Hook.isConnected h
                 then [(w, Hook.chat_frame c (VStr text))]
                 else []
             | None => []
             end
        else []).
Proof.
  unfold sendTextMessage.
  destruct (trim_is_empty text); cbn [orb negb andb snd fst];
    [rewrite written_nothing; repeat split|].
  destruct (isInRoom d); cbn [orb negb andb snd fst];
    [|rewrite written_nothing; repeat split].
  rewrite sendMessage_completion.
  destruct (Hook.socket h) as [w|]; [destruct (Hook.isConnected h)|].
  - destruct r; cbn [Hook.completes negb snd fst messages Hook.handed
                     Hook.messages];
      rewrite written_handed; repeat split.
  - cbn. rewrite written_nothing. repeat split.
  - cbn. rewrite written_nothing. repeat split.
Qed.

(** C6 fails as stated: a text that was sent with success is not among the
    messages of the page. *)
Lemma sent_text_is_not_appended :
  fst (Hook.sendMessage Hook.OPEN Sample.t1 (VStr "Hello") Sample.online)
  = Hook.Returns true
  /\ ~ (exists m,
          In m (messages
                  (fst (snd (sendTextMessage Hook.OPEN Sample.t1 "Hello"
                               (Sample.page, Sample.online)))))
          /\ get "content" m = VStr "Hello").
Proof.
  split; [reflexivity|].
  intros [m [I G]]. cbv in I. destruct I as [I|[]]. subst m.
  cbv in G. discriminate.
Qed.

Lemma nonWelcome_numeric_id (prev : list obj) (m : obj) (q : Q) :
  In m prev -> get "id" m = VNum q ->
  forall kept, nonWelcome prev <> Ok kept.
Proof.
  induction prev as [|a rest IH]; intros I G kept; [destruct I|].
  cbn [nonWelcome]. destruct I as [->|I].
  - rewrite G. discriminate.
  - destruct (startsWith (get "id" a) "welcome"); cbn [bind]; [|discriminate].
    destruct (nonWelcome rest) as [kept'|]; cbn [bind]; [|discriminate].
    exfalso. exact (IH I G kept' eq_refl).
Qed.

(** Where all the ids are strings that do not begin with "welcome", the
    updater keeps every entry and appends the whole of the formatted list
    after them, whether or not an entry is in both. *)
Lemma merge_keeps_and_appends (formatted prev : list obj) :
  Forall (fun m => exists s, get "id" m = VStr s
                             /\ String.prefix "welcome" s = false) prev ->
  merge formatted prev = Ok (prev ++ formatted).
Proof.
  intros F. unfold merge.
  assert (K : nonWelcome prev = Ok prev).
  { induction F as [|m rest [s [G P]] _ IH]; [reflexivity|].
    cbn [nonWelcome]. rewrite G. cbn [startsWith bind]. rewrite P, IH.
    reflexivity. }
  now rewrite K.
Qed.

(** The first [message] frame is merged into the page's list; when the
    second arrives the effect runs again on the hook's two messages, and
    its updater throws on the entry merged before, whose id is a number: no
    list comes out. *)
Lemma second_frame_breaks_sync :
  exists d1 h1,
    deliver (Some "alice") Sample.tags Sample.t0 Sample.hola
      (Sample.page, Sample.online) = Ok (d1, h1)
    /\ map (get "content") (messages d1) = [VStr "Hello"]
    /\ map (get "content") (Hook.messages
                              (Hook.onmessage Sample.t1 (Some Sample.adios) h1))
       = [VStr "Hello"; VStr "Goodbye"]
    /\ deliver (Some "alice") Sample.tags Sample.t1 Sample.adios (d1, h1)
       = TypeError "startsWith is not a function".
Proof.
  do 2 eexists. split; [reflexivity|].
  split; [reflexivity|]. split; reflexivity.
Qed.

(** With string ids in place of the numbers the same second run puts the
    first frame into the list a second time. *)
Lemma merge_appends_first_frame_again :
  let first := format (Some "alice") "t" [("content", VStr "Hello")] in
  let second := format (Some "alice") "t" [("content", VStr "Goodbye")] in
  merge [first; second] [first] = Ok [first; first; second].
Proof. reflexivity. Qed.

End Page.

Section LaterSync.

Import Dashboard.

Lemma format_all_last (user : option string) (tags : nat -> string)
  (l : list obj) (e : obj) :
  forall i,
    In (format user (tags (i + List.length l)%nat) e)
       (format_all user tags i (l ++ [e])).
Proof.
  induction l as [|a l IH]; intros i; cbn [app format_all List.length].
  - left. now rewrite Nat.add_0_r.
  - right. rewrite <- Nat.add_succ_comm. apply IH.
Qed.

Lemma sync_effect_snoc (user : option string) (tags : nat -> string)
  (l : list obj) (e : obj) (d : state) :
  sync_effect user tags (l ++ [e]) d
  = (ms <- merge (format_all user tags 0 (l ++ [e])) (messages d) ;;
     Ok {| messages := ms; isInRoom := isInRoom d;
           notifications := notifications d |}).
Proof. unfold sync_effect. destruct l; reflexivity. Qed.

Lemma length_snoc_differs {A} (l : list A) (e : A) :
  Nat.eqb (List.length (l ++ [e])) (List.length l) = false.
Proof. apply Nat.eqb_neq. rewrite length_app. simpl. lia. Qed.

(** Whatever the two frames are: once a [message] frame has been merged,
    the effect's next run on a further [message] frame throws. *)
Lemma later_sync_throws (user : option string) (tags : nat -> string)
  (c1 c2 : Hook.clock) (f1 f2 : obj)
  (d d1 : state) (h h1 : Hook.state) :
  get "type" f1 = VStr "message" ->
  get "type" f2 = VStr "message" ->
  truthy (Hook.fresh_id c1) = true ->
  deliver user tags c1 f1 (d, h) = Ok (d1, h1) ->
  forall r, deliver user tags c2 f2 (d1, h1) <> Ok r.
Proof.
  intros T1 T2 Id D1 r. unfold deliver in *.
  rewrite (onmessage_message c1 f1 h T1) in D1.
  rewrite (onmessage_message c2 f2 h1 T2).
  cbn [Hook.setMessages Hook.messages] in *.
  rewrite length_snoc_differs, sync_effect_snoc in *.
  unfold merge in D1.
  destruct (nonWelcome (messages d)) as [kept|]; cbn [bind] in D1;
    [|discriminate].
  injection D1 as <- <-. cbn [messages Hook.messages].
  unfold merge.
  destruct (nonWelcome
              (kept ++ format_all user tags 0
                         (Hook.messages h ++ [Hook.chat_entry c1 f1])))
    as [kept'|] eqn:N; cbn [bind]; [|discriminate].
  exfalso. revert N.
  unfold Hook.fresh_id in Id.
  apply (nonWelcome_numeric_id _
           (format user (tags (0 + List.length (Hook.messages h))%nat)
              (Hook.chat_entry c1 f1))
           (inject_Z (Hook.now c1) + Hook.random c1)%Q).
  - apply in_or_app. right. apply format_all_last.
  - cbn [format Hook.chat_entry get String.eqb Ascii.eqb Bool.eqb].
    unfold or_else, Hook.fresh_id. now rewrite Id.
Qed.

End LaterSync.

(* ------------------------------------------------------------------ *)
(** ** The original-language recipient *)
(* ------------------------------------------------------------------ *)

Section SameLanguage.

Import RoomController.

Variable translate : string -> string -> string -> option string.
Variable echo : bool.

Lemma fan_out_frame (room : list participant) (sender : participant)
  (text : string) (seq : Z) (stamp : string) (p : participant) (f : obj) :
  In (p, f) (fan_out translate echo room sender text seq stamp) ->
  f = derive translate sender text seq stamp (declared_language p).
Proof.
  unfold fan_out. intros I.
  apply in_flat_map in I. destruct I as [target [_ I]].
  apply in_map_iff in I. destruct I as [p' [E I]].
  injection E as -> <-.
  apply filter_In in I. destruct I as [_ L].
  apply String.eqb_eq in L. now rewrite L.
Qed.

Lemma fan_out_reaches (room : list participant) (sender : participant)
  (text : string) (seq : Z) (stamp : string) (p : participant) :
  In p (recipients echo sender room) ->
  In (p, derive translate sender text seq stamp (declared_language p))
     (fan_out translate echo room sender text seq stamp).
Proof.
  intros R. unfold fan_out. apply in_flat_map.
  exists (declared_language p). split.
  - unfold languages. apply nodup_In. apply in_map.
    unfold recipients in R. destruct echo; [exact R|].
    apply filter_In in R. tauto.
  - apply in_map_iff. exists p. split; [reflexivity|].
    apply filter_In. split; [exact R | apply String.eqb_refl].
Qed.

(** C5.  A participant of the room whose declared language is the
    sender's (and who is written to at all: any other participant, or the
    sender under the echo policy) is sent a frame, and every frame sent to
    it is marked original and has [content] equal to [original_content];
    the entry the client stores for it does not show the "Original:" line. *)
Theorem same_language_gets_original
  (room : list participant) (sender : participant)
  (text : string) (seq : Z) (stamp : string) (p : participant) :
  In p room ->
  declared_language p = declared_language sender ->
  echo = true \/ participant_id p <> participant_id sender ->
  (exists f, In (p, f) (fan_out translate echo room sender text seq stamp))
  /\ (forall f,
        In (p, f) (fan_out translate echo room sender text seq stamp) ->
        get "is_original" f = VBool true
        /\ get "content" f = get "original_content" f
        /\ forall (c : Hook.clock) (h : Hook.state),
             Hook.messages (Hook.onmessage c (Some f) h)
             = Hook.messages h ++ [Hook.chat_entry c f]
             /\ Simple.shows_original (Hook.chat_entry c f) = false).
Proof.
  intros I L E. split.
  - eexists. apply fan_out_reaches.
    unfold recipients. destruct E as [->|N]; [exact I|].
    destruct echo; [exact I|].
    apply filter_In. split; [exact I|].
    apply negb_true_iff. now apply String.eqb_neq.
  - intros f F. apply fan_out_frame in F. subst f.
    unfold derive. rewrite L, String.eqb_refl.
    split; [reflexivity|]. split; [reflexivity|].
    intros c h. split; [reflexivity|].
    unfold Simple.shows_original, and_then, truthy.
    cbn [Hook.chat_entry get String.eqb Ascii.eqb Bool.eqb strict_eq].
    rewrite String.eqb_refl.
    destruct (String.eqb text "") eqn:Empty; cbn [negb]; [|reflexivity].
    now rewrite Empty.
Qed.

End SameLanguage.

Lemma same_language_gets_original_witness :
  let p3 := {| RoomController.participant_id := "p3";
               RoomController.declared_language := "en" |} in
  let p1 := {| RoomController.participant_id := "p1";
               RoomController.declared_language := "en" |} in
  In p3 Sample.en_es_room
  /\ forall f,
       In (p3, f)
         (RoomController.fan_out Sample.dictionary false Sample.en_es_room p1
            "Hello" 7 "2023-11-14T22:13:20.000Z") ->
       get "is_original" f = VBool true
       /\ get "content" f = get "original_content" f.
Proof.
  intros p3 p1.
  assert (I : In p3 Sample.en_es_room) by (cbv; tauto).
  assert (N : RoomController.participant_id p3
               <> RoomController.participant_id p1) by (cbv; discriminate).
  split; [exact I|]. intros f F.
  destruct (same_language_gets_original Sample.dictionary false
              Sample.en_es_room p1 "Hello" 7 "2023-11-14T22:13:20.000Z" p3
              I eq_refl (or_intror N)) as [_ A].
  destruct (A f F) as [O [C _]]. split; [exact O | exact C].
Defined.

(* ------------------------------------------------------------------ *)
(** ** Typing, errors and disconnecting *)
(* ------------------------------------------------------------------ *)

Section Typing.

Import Hook Lifecycle.

Lemma sendTyping_completion (r : readyState) (v : value) (h : state) :
  sendTyping r v h
  = match socket h with
    | Some w =>
        if isConnected h
        then (completes r tt, handed w (JSON_stringify (typing_frame v)) h)
        else (Returns tt, h)
    | None => (Returns tt, h)
    end.
Proof. reflexivity. Qed.

(** X1.  [sendTyping] hands one frame to the socket exactly when there is
    a socket and [isConnected] holds, and changes no cell of the hook; the
    frame has the members [type] and [is_typing], and only [type] when the
    function is called without a value.  The call returns, unless the
    frame was handed to a socket that is still CONNECTING. *)
Theorem sendTyping_writes_when_connected
  (r : readyState) (v : value) (h : state) :
  written h (snd (sendTyping r v h))
  = match socket h with
    | Some w =>
        if isConnected h
        then [(w, if is_undefined v then [("type", VStr "typing")]
                  else [("type", VStr "typing"); ("is_typing", v)])]
        else []
    | None => []
    end
  /\ messages (snd (sendTyping r v h)) = messages h
  /\ roomUsers (snd (sendTyping r v h)) = roomUsers h
  /\ socket (snd (sendTyping r v h)) = socket h
  /\ isConnected (snd (sendTyping r v h)) = isConnected h
  /\ reconnectAttempts (snd (sendTyping r v h)) = reconnectAttempts h
  /\ timers (snd (sendTyping r v h)) = timers h
  /\ fst (sendTyping r v h)
     = match socket h with
       | Some _ => if isConnected h then completes r tt else Returns tt
       | None => Returns tt
       end.
Proof.
  rewrite sendTyping_completion.
  destruct (socket h) as [w|] eqn:S; [destruct (isConnected h) eqn:C|];
    cbn [fst snd]; rewrite ?written_handed, ?written_nothing;
    cbn [handed messages roomUsers socket isConnected reconnectAttempts
         timers]; rewrite ?S, ?C; repeat split.
  unfold JSON_stringify, typing_frame. cbn [filter snd is_undefined negb].
  now destruct (is_undefined v).
Qed.

(** X2.  After a socket error [sendMessage] answers false and [sendTyping]
    does nothing, whatever the state was; the error handler keeps the socket
    cell and schedules no reconnection.  Once a socket has opened,
    [sendMessage] calls [send] again when the cell is not empty: it answers
    true, unless the socket of the cell is still CONNECTING and [send]
    throws. *)
Theorem no_send_after_error
  (r : readyState) (p : props) (w : ws) (c : clock) (content v : value)
  (h : state) :
  sendMessage r c content (onerror h) = (Returns false, onerror h)
  /\ sendTyping r v (onerror h) = (Returns tt, onerror h)
  /\ socket (onerror h) = socket h
  /\ timers (onerror h) = timers h
  /\ reconnectAttempts (onerror h) = reconnectAttempts h
  /\ fst (sendMessage r c content (onopen p w (onerror h)))
     = match socket h with
       | Some _ => completes r true
       | None => Returns false
       end.
Proof.
  rewrite !sendMessage_completion, sendTyping_completion.
  unfold onopen, onerror. cbn.
  destruct (socket h); repeat split.
Qed.

Lemma disconnect_cleared (i : instance) :
  socket (cells (disconnect i)) = None.
Proof.
  unfold disconnect, disconnect_of.
  destruct (socket (cells i)) eqn:S; [reflexivity | exact S].
Qed.

(** X3.  [disconnect] closes the socket of the cell with code 1000, once,
    and empties the cell; without a socket it does nothing, so a second call
    changes nothing.  Afterwards [sendMessage] answers false, and the close
    event with the code asked for schedules no reconnection. *)
Theorem disconnect_once
  (r : readyState) (c : clock) (content : value) (i : instance) :
  disconnect (disconnect i) = disconnect i
  /\ closing (disconnect i)
     = closing i
       ++ match socket (cells i) with
          | Some w => [{| target := w; code := 1000;
                          reason := "User disconnected" |}]
          | None => []
          end
  /\ sendMessage r c content (cells (disconnect i))
     = (Returns false, cells (disconnect i))
  /\ timers (onclose 1000 (cells (disconnect i))) = timers (cells i)
  /\ sent (cells (disconnect i)) = sent (cells i).
Proof.
  split.
  - unfold disconnect at 1. now rewrite disconnect_cleared.
  - split.
    + unfold disconnect, disconnect_of.
      destruct (socket (cells i)); [reflexivity | now rewrite app_nil_r].
    + split.
      * rewrite sendMessage_completion. now rewrite disconnect_cleared.
      * unfold disconnect, disconnect_of.
        destruct (socket (cells i)); split; reflexivity.
Qed.

End Typing.

(* ------------------------------------------------------------------ *)
(** ** What the handlers keep, over any sequence of them *)
(* ------------------------------------------------------------------ *)

Section Traces.

Import Hook Lifecycle.

Lemma strict_eq_trans (a b c : value) :
  strict_eq a b = true -> strict_eq b c = true -> strict_eq a c = true.
Proof.
  destruct a as [| |x|x|x], b as [| |y|y|y], c as [| |z|z|z];
    simpl; try discriminate; trivial.
  - destruct x, y, z; simpl; trivial; discriminate.
  - intros H1 H2. apply Qeq_bool_iff in H1, H2. apply Qeq_bool_iff.
    now rewrite H1.
  - intros H1 H2. apply String.eqb_eq in H1, H2. subst. apply String.eqb_refl.
Qed.

Lemma onmessage_cases (c : clock) (parsed : option obj) (h : state) :
  onmessage c parsed h = h
  \/ exists d,
       parsed = Some d
       /\ ((get "type" d = VStr "message"
            /\ onmessage c parsed h
               = setMessages (fun prev => prev ++ [chat_entry c d]) h)
           \/ (get "type" d = VStr "user_joined"
               /\ onmessage c parsed h
                  = setMessages (fun prev => prev ++ [system_entry c d])
                      (setRoomUsers (join_roster d) h))
           \/ (get "type" d = VStr "user_left"
               /\ onmessage c parsed h
                  = setMessages (fun prev => prev ++ [system_entry c d])
                      (setRoomUsers (leave_roster d) h))).
Proof.
  destruct parsed as [d|]; [|now left].
  unfold onmessage.
  destruct (get "type" d) as [| |b|q|t] eqn:T; try (now left).
  destruct (String.eqb t "connected"); [now left|].
  destruct (String.eqb t "message") eqn:M.
  { apply String.eqb_eq in M. subst t. right. exists d. tauto. }
  destruct (String.eqb t "user_joined") eqn:J.
  { apply String.eqb_eq in J. subst t. right. exists d. tauto. }
  destruct (String.eqb t "user_left") eqn:L.
  { apply String.eqb_eq in L. subst t. right. exists d. tauto. }
  left. now destruct (String.eqb t "typing").
Qed.

(** X4.  A frame whose [type] is none of [message], [user_joined] and
    [user_left] (or that has none, or a text that does not parse) leaves
    the hook as it was. *)
Theorem other_frames_are_ignored (c : clock) (d : obj) (h : state) :
  get "type" d <> VStr "message" ->
  get "type" d <> VStr "user_joined" ->
  get "type" d <> VStr "user_left" ->
  onmessage c (Some d) h = h /\ onmessage c None h = h.
Proof.
  intros M J L. split; [|reflexivity].
  destruct (onmessage_cases c (Some d) h) as [E|[d' [P [[T _]|[[T _]|[T _]]]]]];
    trivial; injection P as <-; contradiction.
Qed.

Lemma onmessage_frame (c : clock) (parsed : option obj) (h : state) :
  sent (onmessage c parsed h) = sent h
  /\ timers (onmessage c parsed h) = timers h
  /\ socket (onmessage c parsed h) = socket h
  /\ isConnected (onmessage c parsed h) = isConnected h
  /\ reconnectAttempts (onmessage c parsed h) = reconnectAttempts h
  /\ exists extra,
       messages (onmessage c parsed h) = messages h ++ extra
       /\ (List.length extra <= 1)%nat.
Proof.
  destruct (onmessage_cases c parsed h)
    as [E|[d [_ [[_ E]|[[_ E]|[_ E]]]]]]; rewrite E.
  - repeat split. exists []. rewrite app_nil_r. split; [reflexivity|simpl; lia].
  - repeat split. eexists. split; [reflexivity|simpl; lia].
  - repeat split. eexists. split; [reflexivity|simpl; lia].
  - repeat split. eexists. split; [reflexivity|simpl; lia].
Qed.

(** X5.  Handling an inbound frame writes nothing to a socket, schedules
    nothing and leaves the socket cell, [isConnected] and the attempt
    counter alone; it appends at most one entry to the messages and removes
    none. *)
Theorem inbound_frame_effects (c : clock) (parsed : option obj) (h : state) :
  sent (onmessage c parsed h) = sent h
  /\ timers (onmessage c parsed h) = timers h
  /\ socket (onmessage c parsed h) = socket h
  /\ isConnected (onmessage c parsed h) = isConnected h
  /\ reconnectAttempts (onmessage c parsed h) = reconnectAttempts h
  /\ exists extra,
       messages (onmessage c parsed h) = messages h ++ extra
       /\ (List.length extra <= 1)%nat.
Proof.
  destruct (onmessage_cases c parsed h)
    as [E|[d [_ [[_ E]|[[_ E]|[_ E]]]]]]; rewrite E.
  - repeat split. exists []. rewrite app_nil_r. split; [reflexivity|simpl; lia].
  - repeat split. eexists. split; [reflexivity|simpl; lia].
  - repeat split. eexists. split; [reflexivity|simpl; lia].
  - repeat split. eexists. split; [reflexivity|simpl; lia].
Qed.

Lemma sendMessage_cells
  (r : readyState) (c : clock) (content : value) (h : state) :
  let h' := snd (sendMessage r c content h) in
  messages h' = messages h /\ roomUsers h' = roomUsers h
  /\ reconnectAttempts h' = reconnectAttempts h /\ timers h' = timers h.
Proof.
  rewrite sendMessage_completion.
  destruct (socket h); [destruct (isConnected h)|]; repeat split.
Qed.

Lemma sendTyping_cells (r : readyState) (v : value) (h : state) :
  let h' := snd (sendTyping r v h) in
  messages h' = messages h /\ roomUsers h' = roomUsers h
  /\ reconnectAttempts h' = reconnectAttempts h /\ timers h' = timers h.
Proof.
  rewrite sendTyping_completion.
  destruct (socket h); [destruct (isConnected h)|]; repeat split.
Qed.

Lemma connect_cells (p : props) (h : state) :
  let h' := fst (connect p h) in
  messages h' = messages h /\ roomUsers h' = roomUsers h
  /\ reconnectAttempts h' = reconnectAttempts h /\ timers h' = timers h
  /\ sent h' = sent h.
Proof.
  unfold connect.
  destruct (negb (truthy (roomId p)) || negb (truthy (userId p))
            || negb (truthy (userLanguage p))); [repeat split|].
  destruct (url_rejected p); repeat split.
Qed.

Lemma disconnect_cells (i : instance) :
  messages (cells (disconnect i)) = messages (cells i)
  /\ roomUsers (cells (disconnect i)) = roomUsers (cells i)
  /\ reconnectAttempts (cells (disconnect i)) = reconnectAttempts (cells i)
  /\ timers (cells (disconnect i)) = timers (cells i).
Proof.
  unfold disconnect, disconnect_of.
  destruct (socket (cells i)); repeat split.
Qed.

Lemma onclose_lists (code : Z) (h : state) :
  messages (onclose code h) = messages h
  /\ roomUsers (onclose code h) = roomUsers h
  /\ sent (onclose code h) = sent h.
Proof.
  unfold onclose.
  destruct (negb (code =? 1000)
            && (reconnectAttempts h <? maxReconnectAttempts)); repeat split.
Qed.

Lemma acts_cons (p : props) (a : action) (l : list action) (i : instance) :
  acts p (a :: l) i = acts p l (act p i a).
Proof. reflexivity. Qed.

Lemma act_messages (p : props) (i : instance) (a : action) :
  exists extra,
    messages (cells (act p i a)) = messages (cells i) ++ extra
    /\ (List.length extra <= 1)%nat.
Proof.
  assert (Same : forall h', messages h' = messages (cells i) ->
            exists extra, messages h' = messages (cells i) ++ extra
                          /\ (List.length extra <= 1)%nat).
  { intros h' E. exists []. rewrite app_nil_r. split; [exact E|simpl; lia]. }
  destruct a; cbn [act on_cells cells].
  - apply Same, connect_cells.
  - apply Same. reflexivity.
  - apply Same, onclose_lists.
  - apply Same. reflexivity.
  - apply onmessage_frame.
  - apply Same, sendMessage_cells.
  - apply Same, sendTyping_cells.
  - apply Same, disconnect_cells.
Qed.

(** X6.  Whatever the hook goes through (connecting, open, close and error
    events, inbound frames, sends, disconnecting), the messages it holds
    only grow at the end: the earlier list is a prefix of the later one, and
    each step adds at most one entry. *)
Theorem messages_only_grow (p : props) (l : list action) (i : instance) :
  exists extra,
    messages (cells (acts p l i)) = messages (cells i) ++ extra
    /\ (List.length extra <= List.length l)%nat.
Proof.
  revert i. induction l as [|a l IH]; intros i.
  - exists []. rewrite app_nil_r. split; [reflexivity|simpl; lia].
  - rewrite acts_cons.
    destruct (IH (act p i a)) as [e2 [E2 L2]].
    destruct (act_messages p i a) as [e1 [E1 L1]].
    exists (e1 ++ e2). rewrite E2, E1, <- app_assoc. split; [reflexivity|].
    rewrite length_app. simpl. lia.
Qed.

Lemma unique_ids_filter (f : obj -> bool) (roster : list obj) :
  unique_ids roster = true -> unique_ids (filter f roster) = true.
Proof.
  induction roster as [|u rest IH]; [trivial|].
  cbn [unique_ids filter]. intros U.
  apply andb_true_iff in U. destruct U as [N U].
  destruct (f u); [|now apply IH].
  cbn [unique_ids]. rewrite (IH U), andb_true_r.
  apply negb_true_iff. apply negb_true_iff in N.
  destruct (existsb (same_user (get "user_id" u)) (filter f rest)) eqn:E;
    trivial.
  apply existsb_exists in E. destruct E as [x [I S]].
  apply filter_In in I. destruct I as [I _].
  assert (X : existsb (same_user (get "user_id" u)) rest = true)
    by (apply existsb_exists; now exists x).
  congruence.
Qed.

Lemma act_roster (p : props) (i : instance) (a : action) :
  unique_ids (roomUsers (cells i)) = true ->
  unique_ids (roomUsers (cells (act p i a))) = true.
Proof.
  intros U. destruct a; cbn [act on_cells cells]; trivial.
  - now rewrite (proj1 (proj2 (connect_cells p (cells i)))).
  - now rewrite (proj1 (proj2 (onclose_lists code0 (cells i)))).
  - destruct (onmessage_cases c parsed (cells i))
      as [E|[d [_ [[_ E]|[[_ E]|[_ E]]]]]]; rewrite E; trivial;
      cbn [setMessages setRoomUsers roomUsers].
    + now apply join_roster_unique.
    + now apply unique_ids_filter.
  - now rewrite (proj1 (proj2 (sendMessage_cells r c content (cells i)))).
  - now rewrite (proj1 (proj2 (sendTyping_cells r isTyping (cells i)))).
  - now rewrite (proj1 (proj2 (disconnect_cells i))).
Qed.

(** X7.  A roster in which no two entries carry the same [user_id] stays
    so through anything the hook goes through, whatever frames arrive and
    in whatever order. *)
Theorem roster_stays_unique (p : props) (l : list action) (i : instance) :
  unique_ids (roomUsers (cells i)) = true ->
  unique_ids (roomUsers (cells (acts p l i))) = true.
Proof.
  revert i. induction l as [|a l IH]; intros i U; [exact U|].
  rewrite acts_cons. apply IH. now apply act_roster.
Qed.

End Traces.

Lemma other_frames_are_ignored_witness :
  Hook.onmessage Sample.t0 (Some [("type", VStr "typing");
                                  ("is_typing", VBool true)]) Sample.online
  = Sample.online.
Proof.
  refine (proj1 (other_frames_are_ignored Sample.t0
            [("type", VStr "typing"); ("is_typing", VBool true)]
            Sample.online _ _ _)); cbv; discriminate.
Defined.

Lemma roster_stays_unique_witness :
  Hook.unique_ids (Hook.roomUsers (Lifecycle.cells Lifecycle.start)) = true
  /\ Hook.unique_ids
       (Hook.roomUsers
          (Lifecycle.cells
             (Lifecycle.acts Sample.alice
                [Lifecycle.DoConnect; Lifecycle.SocketOpen 0%nat;
                 Lifecycle.Frame Sample.t0 (Some Sample.bob_joined);
                 Lifecycle.Frame Sample.t1 (Some Sample.bob_joined);
                 Lifecycle.Frame Sample.t1 (Some Sample.bob_left)]
                Lifecycle.start))) = true.
Proof.
  split; [reflexivity|].
  apply (roster_stays_unique Sample.alice _ Lifecycle.start). reflexivity.
Defined.

Section MoreTraces.

Import Hook Lifecycle.

Lemma filter_keeps_all {A} (f : A -> bool) (l : list A) :
  (forall x, In x l -> f x = true) -> filter f l = l.
Proof.
  induction l as [|a l IH]; intros K; [reflexivity|].
  cbn [filter]. rewrite (K a (or_introl eq_refl)), IH; [reflexivity|].
  intros x I. apply K. now right.
Qed.

Lemma leave_after_join (joined left : obj) (prev : list obj) :
  strict_eq (get "user_id" left) (get "user_id" joined) = true ->
  existsb (same_user (get "user_id" joined)) prev = false ->
  leave_roster left (join_roster joined prev) = prev.
Proof.
  intros Same Absent. unfold join_roster.
  destruct (find (same_user (get "user_id" joined)) prev) eqn:F.
  { apply find_some in F. destruct F as [I S].
    assert (X : existsb (same_user (get "user_id" joined)) prev = true)
      by (apply existsb_exists; eauto).
    congruence. }
  unfold leave_roster. rewrite filter_app. cbn [filter].
  assert (Gone : same_user (get "user_id" left)
                   [("user_id", get "user_id" joined);
                    ("language", get "language" joined)] = true).
  { unfold same_user. cbn [get String.eqb Ascii.eqb Bool.eqb].
    now rewrite strict_eq_sym. }
  rewrite Gone. cbn [negb]. rewrite app_nil_r.
  apply filter_keeps_all. intros u I. apply negb_true_iff.
  destruct (same_user (get "user_id" left) u) eqn:S; trivial.
  unfold same_user in S.
  assert (X : existsb (same_user (get "user_id" joined)) prev = true).
  { apply existsb_exists. exists u. split; [exact I|].
    unfold same_user. exact (strict_eq_trans _ _ _ S Same). }
  congruence.
Qed.

(** X8.  When the roster has no entry for a participant, a [user_joined]
    frame for it followed by a [user_left] frame for it gives back the
    roster as it was. *)
Theorem join_then_leave_restores
  (c1 c2 : clock) (joined left : obj) (h : state) :
  get "type" joined = VStr "user_joined" ->
  get "type" left = VStr "user_left" ->
  strict_eq (get "user_id" left) (get "user_id" joined) = true ->
  existsb (same_user (get "user_id" joined)) (roomUsers h) = false ->
  roomUsers (onmessage c2 (Some left) (onmessage c1 (Some joined) h))
  = roomUsers h.
Proof.
  intros Tj Tl Same Absent.
  rewrite (onmessage_user_left c2 left _ Tl),
          (onmessage_user_joined c1 joined h Tj).
  now apply leave_after_join.
Qed.

Lemma act_schedule (p : props) (i : instance) (a : action) :
  0 <= reconnectAttempts (cells i) <= 5 ->
  Forall (fun d => In d delays) (timers (cells i)) ->
  0 <= reconnectAttempts (cells (act p i a)) <= 5
  /\ Forall (fun d => In d delays) (timers (cells (act p i a))).
Proof.
  intros B T.
  assert (Same : forall h',
            reconnectAttempts h' = reconnectAttempts (cells i) ->
            timers h' = timers (cells i) ->
            0 <= reconnectAttempts h' <= 5
            /\ Forall (fun d => In d delays) (timers h')).
  { intros h' -> ->. now split. }
  destruct a; cbn [act on_cells cells].
  - apply Same; apply connect_cells.
  - cbn. split; [lia | exact T].
  - unfold onclose, maxReconnectAttempts.
    destruct (negb (code0 =? 1000)); cbn [andb];
      [|cbn; now split].
    destruct (reconnectAttempts (cells i) <? 5) eqn:Lt; [|cbn; now split].
    apply Z.ltb_lt in Lt. cbn [reconnectAttempts timers]. split; [lia|].
    apply Forall_app. split; [exact T|]. constructor; [|constructor].
    assert (E : reconnectAttempts (cells i) = 0
                \/ reconnectAttempts (cells i) = 1
                \/ reconnectAttempts (cells i) = 2
                \/ reconnectAttempts (cells i) = 3
                \/ reconnectAttempts (cells i) = 4) by lia.
    unfold delays.
    destruct E as [E|[E|[E|[E|E]]]]; rewrite E; simpl; tauto.
  - now apply Same.
  - apply Same; apply onmessage_frame.
  - apply Same; apply sendMessage_cells.
  - apply Same; apply sendTyping_cells.
  - apply Same; apply disconnect_cells.
Qed.

(** X9.  From the start and through anything the hook goes through, the
    attempt counter stays between 0 and 5 and every delay handed to
    [setTimeout] is one of 2000, 4000, 6000, 8000 and 10000 milliseconds. *)
Theorem schedule_is_bounded (p : props) (l : list action) :
  0 <= reconnectAttempts (cells (acts p l start)) <= 5
  /\ Forall (fun d => In d [2000; 4000; 6000; 8000; 10000])
       (timers (cells (acts p l start))).
Proof.
  assert (G : forall i,
            0 <= reconnectAttempts (cells i) <= 5 ->
            Forall (fun d => In d delays) (timers (cells i)) ->
            0 <= reconnectAttempts (cells (acts p l i)) <= 5
            /\ Forall (fun d => In d delays) (timers (cells (acts p l i)))).
  { induction l as [|a l IH]; intros i B T; [now split|].
    rewrite acts_cons.
    destruct (act_schedule p i a B T) as [B' T']. now apply IH. }
  apply G; [cbn; lia | constructor].
Qed.

Lemma act_sent (p : props) (i : instance) (a : action) :
  Forall (fun wf => hook_frame p (snd wf)) (sent (cells i)) ->
  Forall (fun wf => hook_frame p (snd wf)) (sent (cells (act p i a))).
Proof.
  intros F. destruct a; cbn [act on_cells cells].
  - now rewrite (proj2 (proj2 (proj2 (proj2 (connect_cells p (cells i)))))).
  - cbn. apply Forall_app. split; [exact F|]. constructor; [|constructor].
    now left.
  - now rewrite (proj2 (proj2 (onclose_lists code0 (cells i)))).
  - exact F.
  - now rewrite (proj1 (onmessage_frame c parsed (cells i))).
  - rewrite sendMessage_completion.
    destruct (socket (cells i)); [destruct (isConnected (cells i))|];
      cbn [snd handed sent]; trivial.
    apply Forall_app. split; [exact F|]. constructor; [|constructor].
    right. left. now exists c, content.
  - rewrite sendTyping_completion.
    destruct (socket (cells i)); [destruct (isConnected (cells i))|];
      cbn [snd handed sent]; trivial.
    apply Forall_app. split; [exact F|]. constructor; [|constructor].
    right. right. now exists isTyping.
  - unfold disconnect, disconnect_of.
    destruct (socket (cells i)); exact F.
Qed.

(** X10.  Every frame the hook ever hands to a socket is the join frame of
    its arguments, a chat frame or a typing frame; nothing else is
    written, whatever arrives. *)
Theorem only_three_frames_are_written (p : props) (l : list action) :
  Forall
    (fun wf =>
       snd wf = JSON_stringify (join_frame p)
       \/ (exists c content, snd wf = JSON_stringify (chat_frame c content))
       \/ (exists v, snd wf = JSON_stringify (typing_frame v)))
    (sent (cells (acts p l start))).
Proof.
  assert (G : forall i,
            Forall (fun wf => hook_frame p (snd wf)) (sent (cells i)) ->
            Forall (fun wf => hook_frame p (snd wf))
              (sent (cells (acts p l i)))).
  { induction l as [|a l IH]; intros i F; [exact F|].
    rewrite acts_cons. apply IH. now apply act_sent. }
  apply (G start). constructor.
Qed.

End MoreTraces.

Lemma join_then_leave_restores_witness :
  Hook.roomUsers
    (Hook.onmessage Sample.t1 (Some Sample.bob_left)
       (Hook.onmessage Sample.t0 (Some Sample.bob_joined) Sample.online))
  = Hook.roomUsers Sample.online.
Proof.
  exact (join_then_leave_restores Sample.t0 Sample.t1 Sample.bob_joined
           Sample.bob_left Sample.online eq_refl eq_refl eq_refl eq_refl).
Defined.

(* ------------------------------------------------------------------ *)
(** ** The effects of the hook *)
(* ------------------------------------------------------------------ *)

Section Effects.

Import Hook Lifecycle.

Variable p : props.
Hypothesis room_given : truthy (roomId p) = true.
Hypothesis user_given : truthy (userId p) = true.
Hypothesis language_given : truthy (userLanguage p) = true.
Hypothesis url_accepted : url_rejected p = false.

Lemma connect_builds (h : state) :
  socket (fst (connect p h)) = Some (created h)
  /\ created (fst (connect p h)) = S (created h)
  /\ snd (connect p h) = Some (created h).
Proof.
  unfold connect.
  rewrite room_given, user_given, language_given, url_accepted.
  repeat split.
Qed.

Lemma same_args_refl : same_args p p = true.
Proof. unfold same_args. now rewrite !strict_eq_refl. Qed.

Lemma same_socket_before (base n : nat) :
  same_socket (before base n) (Some (base + n)%nat) = false.
Proof.
  destruct n as [|k]; [reflexivity|]. simpl.
  apply Nat.eqb_neq. lia.
Qed.

Variable m0 : mounted.
Hypothesis m0_fresh : fresh p m0.

Lemma first_commit :
  let m := commit p m0 in
  seen m = Some (p, None)
  /\ socket (cells (inst m)) = Some (created (cells (inst m0)))
  /\ created (cells (inst m)) = S (created (cells (inst m0)))
  /\ closing (inst m) = closing (inst m0).
Proof.
  destruct m0_fresh as [Sock [Seen|[q [Seen Diff]]]];
    unfold commit; rewrite Seen, Sock.
  - cbn [inst seen on_cells cells closing].
    destruct (connect_builds (cells (inst m0))) as [S1 [C1 _]].
    now rewrite S1, C1.
  - rewrite Diff. cbn [andb same_socket disconnect_of unmount_of inst seen
                        on_cells cells closing].
    destruct (connect_builds (cells (inst m0))) as [S1 [C1 _]].
    now rewrite S1, C1.
Qed.

Lemma commits_state (n : nat) :
  let base := created (cells (inst m0)) in
  let m := commits p (S n) m0 in
  seen m = Some (p, before base n)
  /\ socket (cells (inst m)) = Some (base + n)%nat
  /\ created (cells (inst m)) = S (base + n)
  /\ List.length (closing (inst m))
     = (List.length (closing (inst m0)) + 2 * (n - 1))%nat
  /\ Forall (fun k => code k = 1000 /\ (S (target k) < base + n)%nat)
       (skipn (List.length (closing (inst m0))) (closing (inst m))).
Proof.
  cbn zeta. induction n as [|n IH].
  - change (commits p 1 m0) with (commit p m0). cbn [before].
    destruct first_commit as [Seen [Sock [Made Log]]].
    rewrite Seen, Sock, Made, Log, skipn_all, !Nat.add_0_r.
    repeat split. constructor.
  - unfold commits in *. rewrite Nat.iter_succ.
    set (m := Nat.iter (S n) (commit p) m0) in *.
    destruct IH as [Seen [Sock [Made [Len All]]]].
    unfold commit. rewrite Seen, Sock, same_args_refl, same_socket_before.
    cbn [andb seen inst on_cells cells closing].
    destruct (connect_builds
                (cells (unmount_of (before (created (cells (inst m0))) n)
                          (disconnect_of
                             (before (created (cells (inst m0))) n) (inst m)))))
      as [S1 [C1 _]].
    assert (Made' : created
                      (cells (unmount_of (before (created (cells (inst m0))) n)
                                (disconnect_of
                                   (before (created (cells (inst m0))) n)
                                   (inst m))))
                    = S (created (cells (inst m0)) + n)).
    { destruct n; cbn; exact Made. }
    rewrite S1, C1, Made'.
    replace (created (cells (inst m0)) + S n)%nat
      with (S (created (cells (inst m0)) + n)) by lia.
    repeat split.
    + destruct n as [|k]; cbn [before unmount_of disconnect_of closing].
      * rewrite Len. lia.
      * rewrite !length_app, Len. cbn [List.length]. lia.
    + assert (Older : Forall
                        (fun k => code k = 1000
                                  /\ (S (target k)
                                      < S (created (cells (inst m0)) + n))%nat)
                        (skipn (List.length (closing (inst m0)))
                           (closing (inst m)))).
      { eapply Forall_impl; [|exact All]. cbn. intros k [K T].
        split; [exact K|lia]. }
      destruct n as [|k]; cbn [before unmount_of disconnect_of closing].
      * exact Older.
      * rewrite !skipn_app.
        replace (List.length (closing (inst m0))
                 - List.length (closing (inst m)))%nat with 0%nat by lia.
        replace (List.length (closing (inst m0))
                 - List.length (closing (inst m) ++ _))%nat with 0%nat
          by (rewrite length_app; lia).
        cbn [skipn].
        apply Forall_app; split;
          [apply Forall_app; split; [exact Older|]|];
          (constructor; [cbn; split; [reflexivity|lia] | constructor]).
Qed.

End Effects.



(* ------------------------------------------------------------------ *)
(** ** Joining a room from the pages *)
(* ------------------------------------------------------------------ *)

Section Joining.

Lemma me_truthy (user : option string) : truthy (Dashboard.me user) = true.
Proof.
  unfold Dashboard.me, or_else.
  destruct (truthy (Dashboard.username user)) eqn:T; [exact T | reflexivity].
Qed.

Lemma nonblank_truthy (s : string) :
  trim_is_empty s = false -> truthy (VStr s) = true.
Proof. destruct s; [discriminate | reflexivity]. Qed.

Lemma nonempty_truthy (s : string) : s <> "" -> truthy (VStr s) = true.
Proof. destruct s; [congruence | reflexivity]. Qed.

Example base36_of_a_clock : Base36.toString 1700000000000 = "loyw3v28".
Proof. reflexivity. Qed.

(** X12.  With a language chosen, [joinRoom] sets [isInRoom] and hides the
    set-up screen; a blank room code is replaced by [room-] followed by the
    time in base 36, another is kept, so that the room code is not blank
    afterwards.  The notification names the room code as it was before the
    call, also when that was blank.  The render that follows throws
    ReferenceError: with the set-up screen hidden the component builds the
    room view, which reads identifiers that are not declared. *)
Theorem joinRoom_enters_room (now : Z) (s : Setup.state) :
  Setup.userLanguage s <> "" ->
  let s' := Setup.joinRoom now s in
  Dashboard.isInRoom (Setup.page s') = true
  /\ Setup.showLanguageSetup s' = false
  /\ Setup.roomCode s'
     = (if trim_is_empty (Setup.roomCode s)
        then "room-" ++ Base36.toString now
        else Setup.roomCode s)%string
  /\ trim_is_empty (Setup.roomCode s') = false
  /\ Dashboard.notifications (Setup.page s')
     = Dashboard.notifications (Setup.page s)
       ++ [Setup.toast "success" (Some "Joined Room")
             ("Connected to room: " ++ Setup.roomCode s)]
  /\ Setup.render s' = Hook.Throws "ReferenceError".
Proof.
  intros L s'. subst s'. unfold Setup.joinRoom, Setup.render.
  rewrite (nonempty_truthy _ L). cbn [negb].
  destruct (trim_is_empty (Setup.roomCode s)) eqn:B;
    cbn [Setup.addNotification Setup.page Setup.roomCode
         Setup.showLanguageSetup Dashboard.isInRoom Dashboard.notifications
         Setup.userLanguage].
  - repeat split.
  - repeat split. exact B.
Qed.

(** X13.  On the simple page [handleJoinRoom] sets the page up exactly
    when room, name and language are all non-empty.  Before that the hook,
    given the page's arguments, constructs no socket (its room argument is
    null); afterwards [connect] constructs one exactly when the page is set
    up and the room id has no [#], for which the constructor throws. *)
Theorem handleJoinRoom_then_connect (s : SimplePage.state) (h : Hook.state) :
  SimplePage.isSetup s = false ->
  let ready := negb (String.eqb (SimplePage.roomId s) "")
               && negb (String.eqb (SimplePage.userId s) "")
               && negb (String.eqb (SimplePage.userLanguage s) "") in
  SimplePage.isSetup (SimplePage.handleJoinRoom s) = ready
  /\ snd (Hook.connect (SimplePage.hook_props s) h) = None
  /\ snd (Hook.connect (SimplePage.hook_props (SimplePage.handleJoinRoom s)) h)
     = (if ready && negb (Hook.has_hash (SimplePage.roomId s))
        then Some (Hook.created h) else None).
Proof.
  intros N ready. subst ready.
  unfold SimplePage.handleJoinRoom, SimplePage.hook_props, Hook.connect,
    Hook.url_rejected.
  cbn [truthy]. rewrite N. cbn [Hook.roomId Hook.userId Hook.userLanguage truthy].
  destruct (String.eqb (SimplePage.roomId s) "") eqn:R;
    destruct (String.eqb (SimplePage.userId s) "") eqn:U;
    destruct (String.eqb (SimplePage.userLanguage s) "") eqn:L;
    cbn; rewrite ?N, ?R, ?U, ?L; cbn; repeat split.
  now destruct (Hook.has_hash (SimplePage.roomId s)).
Qed.

(** X14.  On the simple page a blank text changes nothing.  A text that is
    not blank is handed to [sendMessage], whose answer is not looked at:
    when the call returns the input is emptied, also when nothing could be
    sent (no socket, or not [isConnected]) and the text is gone; when the
    call throws (the socket of the cell still CONNECTING) the handler ends
    there and the text stays in the input. *)
Theorem handleSendMessage_clears_input
  (r : Hook.readyState) (c : Hook.clock) (s : SimplePage.state)
  (h : Hook.state) :
  let sending := negb (trim_is_empty (SimplePage.messageText s))
                 && match Hook.socket h with
                    | Some _ => Hook.isConnected h
                    | None => false
                    end in
  let res := SimplePage.handleSendMessage r c (s, h) in
  fst res = (if sending then Hook.completes r tt else Hook.Returns tt)
  /\ SimplePage.messageText (fst (snd res))
     = (if trim_is_empty (SimplePage.messageText s)
        then SimplePage.messageText s
        else if sending
             then match r with
                  | Hook.CONNECTING => SimplePage.messageText s
                  | _ => ""
                  end
             else "")%string
  /\ Hook.written h (snd (snd res))
     = (if sending
        then match Hook.socket h with
             | Some w =>
                 [(w, Hook.chat_frame c (VStr (SimplePage.messageText s)))]
             | None => []
             end
        else [])
  /\ Hook.messages (snd (snd res)) = Hook.messages h
  /\ SimplePage.isSetup (fst (snd res)) = SimplePage.isSetup s.
Proof.
  unfold SimplePage.handleSendMessage.
  destruct (trim_is_empty (SimplePage.messageText s));
    cbn [negb andb fst snd SimplePage.messageText SimplePage.isSetup].
  - rewrite written_nothing. repeat split.
  - rewrite sendMessage_completion.
    destruct (Hook.socket h) as [w|]; [destruct (Hook.isConnected h)|];
      cbn [fst snd].
    + destruct r; cbn [Hook.completes fst snd SimplePage.messageText
                       SimplePage.isSetup Hook.handed Hook.messages];
        rewrite written_handed; repeat split.
    + cbn. rewrite written_nothing. repeat split.
    + cbn. rewrite written_nothing. repeat split.
Qed.

End Joining.

Lemma joinRoom_enters_room_witness :
  let s := {| Setup.page := Sample.page; Setup.roomCode := "  ";
              Setup.userLanguage := "en"; Setup.listenLanguage := "es";
              Setup.showLanguageSetup := true; Setup.speakers := [] |} in
  Setup.userLanguage s <> ""
  /\ Setup.roomCode (Setup.joinRoom 1700000000000 s) = "room-loyw3v28"
  /\ Setup.render (Setup.joinRoom 1700000000000 s)
     = Hook.Throws "ReferenceError".
Proof.
  intros s.
  assert (L : Setup.userLanguage s <> "") by (cbv; discriminate).
  destruct (joinRoom_enters_room 1700000000000 s L)
    as [_ [_ [R [_ [_ T]]]]].
  split; [exact L|]. split; [exact R | exact T].
Defined.

Lemma handleJoinRoom_then_connect_witness :
  let s := {| SimplePage.roomId := "demo-room"; SimplePage.userId := "alice";
              SimplePage.userLanguage := "en"; SimplePage.isSetup := false;
              SimplePage.messageText := "" |} in
  SimplePage.isSetup (SimplePage.handleJoinRoom s) = true
  /\ snd (Hook.connect (SimplePage.hook_props (SimplePage.handleJoinRoom s))
            Hook.init) = Some 0%nat.
Proof.
  intros s.
  destruct (handleJoinRoom_then_connect s Hook.init eq_refl) as [I [_ C]].
  split; [exact I | exact C].
Defined.

(* ------------------------------------------------------------------ *)
(** ** Languages, speakers and the first merge *)
(* ------------------------------------------------------------------ *)

Section PageLists.

Import Languages.

Lemma unknown_code (table : list language) (v : value) :
  lookup table v = None ->
  name_in table v = v /\ flag_in table v = VStr "🌐".
Proof.
  intros N. unfold name_in, flag_in, or_else. rewrite N. cbn. split.
  - now destruct (truthy v).
  - reflexivity.
Qed.

(** X15.  Each page shows every code of its own table with the name and
    flag listed for it, and any other value unchanged with the globe.  The
    two pages agree on the ten codes of the simple page; the codes [ar],
    [hi] and [ur], known to the dashboard only, are shown by the simple
    page as the bare code. *)
Theorem language_names_and_flags :
  Forall (fun lang =>
            Setup.getLanguageName (VStr (code lang)) = VStr (name lang)
            /\ Setup.getLanguageFlag (VStr (code lang)) = VStr (flag lang))
    Setup.LANGUAGES
  /\ Forall (fun lang =>
               SimplePage.getLanguageName (VStr (code lang)) = VStr (name lang)
               /\ SimplePage.getLanguageFlag (VStr (code lang))
                  = VStr (flag lang)
               /\ Setup.getLanguageName (VStr (code lang)) = VStr (name lang))
       SimplePage.LANGUAGES
  /\ Forall (fun c =>
               SimplePage.getLanguageName (VStr c) = VStr c
               /\ SimplePage.getLanguageFlag (VStr c) = VStr "🌐"
               /\ Setup.getLanguageName (VStr c) <> VStr c)
       ["ar"; "hi"; "ur"]
  /\ (forall v, lookup Setup.LANGUAGES v = None ->
                Setup.getLanguageName v = v
                /\ Setup.getLanguageFlag v = VStr "🌐")
  /\ (forall v, lookup SimplePage.LANGUAGES v = None ->
                SimplePage.getLanguageName v = v
                /\ SimplePage.getLanguageFlag v = VStr "🌐").
Proof.
  split; [repeat constructor|].
  split; [repeat constructor|].
  split; [repeat constructor; discriminate|].
  split; intros v N; now apply unknown_code.
Qed.

Lemma length_format_all (user : option string) (tags : nat -> string)
  (l : list obj) :
  forall i, List.length (Dashboard.format_all user tags i l) = List.length l.
Proof.
  induction l as [|x l IH]; intros i; [reflexivity|].
  cbn [Dashboard.format_all List.length]. now rewrite IH.
Qed.

Lemma nonWelcome_welcome (user : option string) (stamp : string) :
  Dashboard.nonWelcome (Dashboard.welcome user stamp) = Ok [].
Proof. reflexivity. Qed.

(** X17.  The first time the hook has messages, the merge removes the
    welcome message: the page's list becomes the hook's messages,
    formatted, in the hook's order, and nothing else. *)
Theorem first_merge_replaces_welcome
  (user : option string) (stamp : string) (tags : nat -> string)
  (m : obj) (wsMessages : list obj) (d : Dashboard.state) :
  Dashboard.messages d = Dashboard.welcome user stamp ->
  exists d',
    Dashboard.sync_effect user tags (m :: wsMessages) d = Ok d'
    /\ Dashboard.messages d'
       = Dashboard.format_all user tags 0 (m :: wsMessages)
    /\ List.length (Dashboard.messages d') = S (List.length wsMessages)
    /\ Dashboard.isInRoom d' = Dashboard.isInRoom d
    /\ Dashboard.notifications d' = Dashboard.notifications d.
Proof.
  intros W.
  exists {| Dashboard.messages
              := Dashboard.format_all user tags 0 (m :: wsMessages);
            Dashboard.isInRoom := Dashboard.isInRoom d;
            Dashboard.notifications := Dashboard.notifications d |}.
  split.
  - unfold Dashboard.sync_effect, Dashboard.merge.
    rewrite W, nonWelcome_welcome. reflexivity.
  - cbn [Dashboard.messages Dashboard.isInRoom Dashboard.notifications].
    rewrite length_format_all. repeat split.
Qed.

(** X18.  [sendTextMessage] posts the "Message Failed" notification, once,
    exactly when the text is not blank, the page is in a room and the hook
    has no socket or is not connected; in every other case it posts
    nothing.  It never changes whether the page is in the room. *)
Theorem sendTextMessage_failure_notice
  (r : Hook.readyState) (c : Hook.clock) (text : string)
  (d : Dashboard.state) (h : Hook.state) :
  let res := Dashboard.sendTextMessage r c text (d, h) in
  Dashboard.notifications (fst (snd res))
  = Dashboard.notifications d
    ++ (if negb (trim_is_empty text) && Dashboard.isInRoom d
           && negb (match Hook.socket h with
                    | Some _ => Hook.isConnected h
                    | None => false
                    end)
        then [Dashboard.send_failed] else [])
  /\ Dashboard.isInRoom (fst (snd res)) = Dashboard.isInRoom d.
Proof.
  unfold Dashboard.sendTextMessage, Hook.sendMessage, Hook.send.
  destruct (trim_is_empty text); cbn [orb negb andb fst snd];
    [now rewrite app_nil_r|].
  destruct (Dashboard.isInRoom d) eqn:I; cbn [orb negb andb fst snd];
    [|now rewrite app_nil_r, I].
  destruct (Hook.socket h); [destruct (Hook.isConnected h)|];
    [destruct r|..];
    cbn [Hook.completes negb fst snd Dashboard.notifications
         Dashboard.isInRoom];
    rewrite ?app_nil_r, ?I; split; reflexivity.
Qed.

(** X19.  The entry the hook stores for a [user_joined] or [user_left]
    frame is shown by the dashboard as a system message from "Unknown" with
    the frame's [message] as content; on the simple page it is never drawn
    on the sender's side and never shows the "Original:" line. *)
Theorem system_entries_on_the_pages
  (c : Hook.clock) (data : obj)
  (user : option string) (tag : string) (userId : string) :
  let entry := Hook.system_entry c data in
  get "sender_type" (Dashboard.format user tag entry) = VStr "system"
  /\ get "speaker_name" (Dashboard.format user tag entry) = VStr "Unknown"
  /\ get "content" (Dashboard.format user tag entry) = get "message" data
  /\ Simple.is_own (VStr userId) entry = false
  /\ Simple.shows_original entry = false.
Proof. cbv. repeat split. Qed.

End PageLists.

Lemma first_merge_replaces_welcome_witness :
  exists d',
    Dashboard.sync_effect (Some "alice") Sample.tags
      [Hook.chat_entry Sample.t0 Sample.hola] Sample.page = Ok d'
    /\ List.length (Dashboard.messages d') = 1%nat.
Proof.
  destruct (first_merge_replaces_welcome (Some "alice")
              (Hook.iso Sample.t0) Sample.tags
              (Hook.chat_entry Sample.t0 Sample.hola) [] Sample.page eq_refl)
    as [d' [S [_ [L _]]]].
  exists d'. split; [exact S | exact L].
Defined.

(* ------------------------------------------------------------------ *)
(** ** utils/helpers.js *)
(* ------------------------------------------------------------------ *)

Section Helpers.

Import Utils.

(** X20.  [truncate] gives back a text that fits as it is; of a longer
    text it keeps the first [maxLength] code units (none when [maxLength]
    is negative) and adds three dots, so that the result has
    [maxLength + 3] code units, which is more than the text had when it was
    one or two code units too long. *)
Theorem truncate_shape (t : text) (maxLength : Z) :
  (if Z.of_nat (List.length t) <=? maxLength
   then truncate t maxLength = t
   else exists kept rest,
          t = kept ++ rest
          /\ List.length kept = Z.to_nat maxLength
          /\ truncate t maxLength = kept ++ dots)
  /\ List.length (truncate t maxLength)
     = (if Z.of_nat (List.length t) <=? maxLength
        then List.length t
        else (Z.to_nat maxLength + 3)%nat).
Proof.
  unfold truncate.
  destruct (Z.of_nat (List.length t) <=? maxLength) eqn:Fits.
  - split; reflexivity.
  - apply Z.leb_gt in Fits.
    assert (Len : List.length (firstn (Z.to_nat maxLength) t)
                  = Z.to_nat maxLength)
      by (rewrite length_firstn; lia).
    split.
    + exists (firstn (Z.to_nat maxLength) t), (skipn (Z.to_nat maxLength) t).
      split; [now rewrite firstn_skipn|]. split; [exact Len | reflexivity].
    + rewrite length_app, Len. reflexivity.
Qed.

Lemma ToInt32_range (z : Z) : - 2 ^ 31 <= ToInt32 z < 2 ^ 31.
Proof.
  unfold ToInt32.
  pose proof (Z.mod_pos_bound (z + 2 ^ 31) (2 ^ 32) ltac:(lia)). lia.
Qed.

Lemma mix_is_times_31 (a b : Z) :
  mix (ToInt32 a) b = ToInt32 (31 * a + b).
Proof.
  unfold mix, shl5, ToInt32.
  change (2 ^ 31) with 2147483648. change (2 ^ 32) with 4294967296.
  Z.div_mod_to_equations. lia.
Qed.

Lemma hash_fold (l : text) :
  forall a,
    fold_left mix l (ToInt32 a)
    = ToInt32 (fold_left (fun x b => 31 * x + b) l a).
Proof.
  induction l as [|b l IH]; intros a; [reflexivity|].
  cbn [fold_left]. rewrite mix_is_times_31. apply IH.
Qed.

(** X21.  The hash of [getSpeakerColor] is the polynomial of base 31 over
    the code units of the id, reduced to a signed 32-bit integer; whatever
    the id, the index computed from it is within the six colours, so a
    colour is always returned, and the empty id gets the first. *)
Theorem getSpeakerColor_defined (speakerId : text) :
  hash speakerId = ToInt32 (polynomial speakerId)
  /\ - 2 ^ 31 <= hash speakerId < 2 ^ 31
  /\ (exists color,
        getSpeakerColor speakerId = Some color /\ In color colors)
  /\ getSpeakerColor [] = Some "from-blue-600 to-blue-700".
Proof.
  assert (H : hash speakerId = ToInt32 (polynomial speakerId)).
  { unfold hash, polynomial. change 0 with (ToInt32 0) at 1. apply hash_fold. }
  split; [exact H|]. split; [rewrite H; apply ToInt32_range|].
  split; [|reflexivity].
  unfold getSpeakerColor.
  destruct (nth_error colors
              (Z.to_nat (Z.abs (hash speakerId)
                         mod Z.of_nat (List.length colors)))) as [color|] eqn:N.
  - exists color. split; [reflexivity|]. eapply nth_error_In; eassumption.
  - exfalso. apply nth_error_None in N.
    pose proof (Z.mod_pos_bound (Z.abs (hash speakerId))
                  (Z.of_nat (List.length colors)) ltac:(cbn; lia)).
    lia.
Qed.

End Helpers.

(* ------------------------------------------------------------------ *)
(** ** utils/websocket.js *)
(* ------------------------------------------------------------------ *)

Section Voice.

Import VoiceWebSocket.

Lemma lost_schedule (n : nat) :
  forall s,
    0 <= reconnectAttempts s <= 5 ->
    timers (Nat.iter n lost s)
    = timers s
      ++ map (fun k => 1000 * Z.of_nat k)
           (seq (Z.to_nat (reconnectAttempts s))
              (Nat.min n (5 - Z.to_nat (reconnectAttempts s))))
    /\ created (Nat.iter n lost s)
       = (created s + Nat.min n (5 - Z.to_nat (reconnectAttempts s)))%nat.
Proof.
  induction n as [|n IH]; intros s B.
  - cbn. rewrite app_nil_r. split; [reflexivity | lia].
  - rewrite Nat.iter_succ_r. unfold lost at 2 4, onclose, maxReconnectAttempts.
    destruct (reconnectAttempts s <? 5) eqn:Lt.
    + apply Z.ltb_lt in Lt.
      destruct (IH (retry
                      {| ws := ws s; reconnectAttempts := reconnectAttempts s;
                         created := created s; sent := sent s;
                         closed := closed s;
                         timers := timers s
                                   ++ [reconnectInterval * reconnectAttempts s] |})
                   ltac:(cbn; lia)) as [T C].
      rewrite T, C. cbn [retry connect timers reconnectAttempts created].
      replace (Z.to_nat (reconnectAttempts s + 1))
        with (S (Z.to_nat (reconnectAttempts s))) by lia.
      replace (Nat.min (S n) (5 - Z.to_nat (reconnectAttempts s)))
        with (S (Nat.min n (5 - S (Z.to_nat (reconnectAttempts s))))) by lia.
      cbn [seq map]. rewrite <- app_assoc. cbn [app].
      unfold reconnectInterval. split; [|lia].
      do 2 f_equal. lia.
    + apply Z.ltb_ge in Lt. destruct (IH s B) as [T C]. rewrite T, C.
      replace (5 - Z.to_nat (reconnectAttempts s))%nat with 0%nat by lia.
      rewrite !Nat.min_0_r. split; reflexivity.
Qed.

(** X22.  After an open, a socket of [VoiceWebSocket] that is lost again
    and again is retried at once (delay 0) and then after 1000, 2000, 3000
    and 4000 milliseconds, each retry constructing one socket; after five
    retries without an open nothing more is scheduled. *)
Theorem voice_retries_after_open
  (open : bool) (apiKey : value) (s : state) (n : nat) :
  let s' := Nat.iter n lost (onopen open apiKey s) in
  timers s'
  = timers s ++ map (fun k => 1000 * Z.of_nat k) (seq 0 (Nat.min n 5))
  /\ created s' = (created s + Nat.min n 5)%nat.
Proof.
  assert (O : reconnectAttempts (onopen open apiKey s) = 0
              /\ timers (onopen open apiKey s) = timers s
              /\ created (onopen open apiKey s) = created s).
  { unfold onopen, send. cbn. destruct (ws s); [destruct open|]; repeat split. }
  destruct O as [A [T C]].
  destruct (lost_schedule n (onopen open apiKey s) ltac:(rewrite A; lia))
    as [T' C'].
  cbn zeta. rewrite T', C', A, T, C. cbn [Z.to_nat]. rewrite Nat.sub_0_r.
  split; reflexivity.
Qed.

(** X23.  [disconnect] of [VoiceWebSocket] does not end the connection for
    good: the close event of the socket it closed still schedules a retry
    (unless five have been used), and when that fires a new socket is
    constructed and kept. *)
Theorem voice_disconnect_is_retried (s : state) (w : nat) :
  ws s = Some w ->
  reconnectAttempts s < 5 ->
  let s' := onclose (disconnect s) in
  ws (disconnect s) = None
  /\ closed s' = closed s ++ [w]
  /\ timers s' = timers s ++ [1000 * reconnectAttempts s]
  /\ ws (retry s') = Some (created s)
  /\ created (retry s') = S (created s).
Proof.
  intros W Lt. unfold disconnect, onclose, maxReconnectAttempts. rewrite W.
  cbn [reconnectAttempts]. apply Z.ltb_lt in Lt. rewrite Lt.
  cbn. repeat split.
Qed.

End Voice.

Lemma voice_disconnect_is_retried_witness :
  let s := VoiceWebSocket.onopen true (VStr "key")
             (VoiceWebSocket.connect VoiceWebSocket.init) in
  VoiceWebSocket.ws s = Some 0%nat
  /\ VoiceWebSocket.ws
       (VoiceWebSocket.retry
          (VoiceWebSocket.onclose (VoiceWebSocket.disconnect s))) = Some 1%nat.
Proof.
  intros s. split; [reflexivity|].
  assert (L : VoiceWebSocket.reconnectAttempts s < 5) by (cbv; reflexivity).
  exact (proj1 (proj2 (proj2 (proj2
           (voice_disconnect_is_retried s 0%nat eq_refl L))))).
Defined.

(* ------------------------------------------------------------------ *)
(** ** The chat window, the recorder's clock, the settings *)
(* ------------------------------------------------------------------ *)

Section Components.

(** X24.  A text submitted in the chat window of the dashboard does
    nothing, and stays in the input, when it is blank or the hook is not
    connected.  Otherwise it is handed to [sendTextMessage]: with the page
    in a room the text is handed as one chat frame to the hook's socket,
    and the "Message Failed" notice is posted only when the hook says it is
    connected but holds no socket.  The input is emptied when that call
    returns; when it throws (the page in a room, the socket of the cell
    still CONNECTING) the submit ends there and the text stays in the
    input. *)
Theorem chat_window_submit
  (r : Hook.readyState) (c : Hook.clock) (text : string)
  (d : Dashboard.state) (h : Hook.state) :
  let go := negb (trim_is_empty text) && Hook.isConnected h in
  let sending := go && Dashboard.isInRoom d
                 && match Hook.socket h with Some _ => true | None => false end in
  let res := ChatWindow.handleSubmit (Hook.isConnected h)
               (Dashboard.sendTextMessage r c) text (d, h) in
  fst res = (if sending then Hook.completes r tt else Hook.Returns tt)
  /\ fst (snd res)
     = (if go
        then if sending
             then match r with Hook.CONNECTING => text | _ => "" end
             else ""
        else text)%string
  /\ Dashboard.notifications (fst (snd (snd res)))
     = Dashboard.notifications d
       ++ (if go && Dashboard.isInRoom d
              && match Hook.socket h with Some _ => false | None => true end
           then [Dashboard.send_failed] else [])
  /\ Hook.written h (snd (snd (snd res)))
     = (if go && Dashboard.isInRoom d
        then match Hook.socket h with
             | Some w => [(w, Hook.chat_frame c (VStr text))]
             | None => []
             end
        else []).
Proof.
  unfold ChatWindow.handleSubmit, Dashboard.sendTextMessage, Hook.sendMessage,
    Hook.send.
  destruct (trim_is_empty text); cbn [negb andb orb fst snd];
    [now rewrite app_nil_r, written_nothing|].
  destruct (Hook.isConnected h) eqn:C; cbn [negb andb orb fst snd];
    [|now rewrite app_nil_r, written_nothing].
  destruct (Dashboard.isInRoom d); cbn [negb andb orb fst snd];
    [|now rewrite app_nil_r, written_nothing].
  destruct (Hook.socket h); [destruct r|];
    cbn [Hook.completes negb fst snd Dashboard.notifications];
    rewrite ?app_nil_r, ?written_handed, ?written_nothing; repeat split.
Qed.

Lemma two_digits (n : nat) :
  (n < 60)%nat ->
  VoiceRecorder.padStart2 (VoiceRecorder.toString n)
  = String (VoiceRecorder.digit (n / 10))
      (String (VoiceRecorder.digit (n mod 10)) "").
Proof.
  intros L. do 60 (destruct n as [|n]; [reflexivity|]). lia.
Qed.

(** X25.  For every whole number of seconds [formatTime] writes the
    minutes in decimal, a colon, and the seconds of the minute with exactly
    two digits, the tens first. *)
Theorem formatTime_two_digit_seconds (seconds : nat) :
  VoiceRecorder.formatTime seconds
  = (VoiceRecorder.toString (seconds / 60) ++ ":"
     ++ String (VoiceRecorder.digit (seconds mod 60 / 10))
          (String (VoiceRecorder.digit (seconds mod 60 mod 10)) ""))%string.
Proof.
  unfold VoiceRecorder.formatTime. cbn zeta.
  rewrite two_digits; [reflexivity|].
  apply Nat.mod_upper_bound. discriminate.
Qed.

Import Settings.

Lemma lookup_assign (k k' : string) (v : obj) (o : settings) :
  lookup k (assign k' v o)
  = if String.eqb k k' then Some v else lookup k o.
Proof.
  induction o as [|[k1 v1] rest IH]; cbn [assign lookup].
  - reflexivity.
  - destruct (String.eqb k' k1) eqn:E; cbn [lookup].
    + apply String.eqb_eq in E. subst k1.
      now destruct (String.eqb k k').
    + rewrite IH. destruct (String.eqb k k1) eqn:E1; trivial.
      apply String.eqb_eq in E1. subst k1.
      rewrite String.eqb_sym in E. now rewrite E.
Qed.

Lemma lookup_absent (k : string) (o : settings) :
  ~ In k (map fst o) -> lookup k o = None.
Proof.
  induction o as [|[k1 v1] rest IH]; cbn [lookup map fst In]; trivial.
  intros N. destruct (String.eqb k k1) eqn:E.
  - apply String.eqb_eq in E. subst. tauto.
  - apply IH. tauto.
Qed.

Lemma lookup_spread (k : string) (b : settings) :
  NoDup (map fst b) ->
  forall a,
    lookup k (spread a b)
    = match lookup k b with Some v => Some v | None => lookup k a end.
Proof.
  unfold spread. induction b as [|[k1 v1] rest IH]; intros U a.
  - reflexivity.
  - cbn [fold_left fst snd lookup]. inversion U as [|? ? N U']; subst.
    rewrite (IH U'), lookup_assign.
    destruct (String.eqb k k1) eqn:E.
    + apply String.eqb_eq in E. subst k1.
      now rewrite (lookup_absent k rest N).
    + reflexivity.
Qed.

Lemma lookup_json (k : string) (x : settings) :
  lookup k (json x)
  = match lookup k x with Some v => Some (JSON_stringify v) | None => None end.
Proof.
  induction x as [|[k1 v1] rest IH]; cbn [json map lookup fst snd]; trivial.
  destruct (String.eqb k k1); [reflexivity | exact IH].
Qed.

(** X26.  Settings saved with [updateSettings] and read by the next mount
    come back category by category: a category that was saved is taken
    whole from the saved settings (its members as JSON keeps them, with
    nothing filled in from the defaults), and a category that was not saved
    has its default.  After [resetSettings] the next mount has the
    defaults. *)
Theorem settings_survive_reload
  (newSettings : settings) (s : state) (category : string) :
  NoDup (map fst newSettings) ->
  lookup category
    (current (load_effect (mount (stored (updateSettings newSettings s)))))
  = match lookup category newSettings with
    | Some members => Some (JSON_stringify members)
    | None => lookup category defaultSettings
    end
  /\ current (load_effect (mount (stored (resetSettings s))))
     = defaultSettings.
Proof.
  intros U. split; [|reflexivity].
  cbn [updateSettings stored mount load_effect current].
  rewrite lookup_spread, lookup_json.
  - now destruct (lookup category newSettings).
  - unfold json. rewrite map_map. exact U.
Qed.

End Components.

Lemma settings_survive_reload_witness :
  let saved := [("audio", [("outputVolume", VNum (inject_Z 35))])] in
  NoDup (map fst saved)
  /\ Settings.lookup "audio"
       (Settings.current
          (Settings.load_effect
             (Settings.mount
                (Settings.stored
                   (Settings.updateSettings saved
                      (Settings.mount None))))))
     = Some [("outputVolume", VNum (inject_Z 35))].
Proof.
  intros saved.
  assert (U : NoDup (map fst saved)) by (repeat constructor; intros []).
  split; [exact U|].
  exact (proj1 (settings_survive_reload saved (Settings.mount None) "audio" U)).
Defined.

(* ------------------------------------------------------------------ *)
(** ** The dashboard's list never holds a frame twice *)
(* ------------------------------------------------------------------ *)

Section AtMostOnce.

Import Merging.

Lemma real_fresh_id (c : Hook.clock) :
  real c ->
  exists q, Hook.fresh_id c = VNum q /\ truthy (VNum q) = true.
Proof.
  intros [N R]. eexists. split; [reflexivity|].
  cbn [truthy]. destruct (Qeq_bool _ 0) eqn:E; [|reflexivity].
  exfalso. apply Qeq_bool_iff in E. revert N R E.
  destruct (Hook.random c) as [qn qd].
  unfold Qeq, Qle, Qplus, inject_Z. cbn [Qnum Qden]. nia.
Qed.

Lemma stored_entries_numbered (c : Hook.clock) (d : obj) :
  real c -> numbered (Hook.chat_entry c d) /\ numbered (Hook.system_entry c d).
Proof.
  intros R. destruct (real_fresh_id c R) as [q [F T]].
  split; exists q; split; trivial.
Qed.

Lemma arrival_appends_numbered
  (c : Hook.clock) (parsed : option obj) (h : Hook.state) :
  real c ->
  exists extra,
    Hook.messages (Hook.onmessage c parsed h) = Hook.messages h ++ extra
    /\ Forall numbered extra.
Proof.
  intros R.
  destruct (onmessage_cases c parsed h) as [E|[d [_ [[_ E]|[[_ E]|[_ E]]]]]];
    rewrite E.
  - exists []. now rewrite app_nil_r.
  - exists [Hook.chat_entry c d]. split; [reflexivity|].
    constructor; [apply (stored_entries_numbered c d R) | constructor].
  - exists [Hook.system_entry c d]. split; [reflexivity|].
    constructor; [apply (stored_entries_numbered c d R) | constructor].
  - exists [Hook.system_entry c d]. split; [reflexivity|].
    constructor; [apply (stored_entries_numbered c d R) | constructor].
Qed.

Lemma format_keeps_number (user : option string) (tag : string) (m : obj) :
  numbered m -> exists q, get "id" (Dashboard.format user tag m) = VNum q.
Proof.
  intros [q [G T]]. exists q.
  cbn [Dashboard.format get String.eqb Ascii.eqb Bool.eqb].
  rewrite G. unfold or_else. now rewrite T.
Qed.

Lemma merged_list_cannot_be_filtered
  (user : option string) (tags : nat -> string) (l : list obj) :
  Forall numbered l -> l <> [] ->
  forall i kept,
    Dashboard.nonWelcome (Dashboard.format_all user tags i l) <> Ok kept.
Proof.
  intros F N i kept. destruct l as [|m rest]; [contradiction|].
  inversion F as [|? ? Nm _]; subst.
  destruct (format_keeps_number user (tags i) m Nm) as [q G].
  apply (nonWelcome_numeric_id _ (Dashboard.format user (tags i) m) q);
    [now left | exact G].
Qed.

Lemma nth_error_format_all
  (user : option string) (tags : nat -> string) (l : list obj) :
  forall i k m,
    nth_error (Dashboard.format_all user tags i l) k = Some m ->
    exists e,
      nth_error l k = Some e /\ m = Dashboard.format user (tags (i + k)%nat) e.
Proof.
  induction l as [|a l IH]; intros i k m H.
  - destruct k; discriminate.
  - destruct k as [|k]; cbn [Dashboard.format_all nth_error] in *.
    + injection H as <-. exists a. now rewrite Nat.add_0_r.
    + destruct (IH (S i) k m H) as [e [E F]]. exists e.
      split; [exact E|]. now rewrite <- Nat.add_succ_comm.
Qed.

Lemma nth_error_firstn_some {A} (l : list A) :
  forall n k x, nth_error (firstn n l) k = Some x -> nth_error l k = Some x.
Proof.
  induction l as [|a l IH]; intros n k x H.
  - rewrite firstn_nil in H. destruct k; discriminate.
  - destruct n as [|n]; [destruct k; discriminate|].
    destruct k as [|k]; [exact H|]. cbn [firstn nth_error] in *.
    now apply (IH n).
Qed.

Lemma Forall_firstn_of {A} (P : A -> Prop) (l : list A) :
  Forall P l -> forall n, Forall P (firstn n l).
Proof.
  induction 1 as [|a l Pa _ IH]; intros n.
  - rewrite firstn_nil. constructor.
  - destruct n as [|n]; cbn [firstn]; constructor; [exact Pa | apply IH].
Qed.

Lemma step_settled (user : option string) (stamp : string)
  (tags : nat -> string) (e : event) (s s' : page) :
  match e with Arrives c _ => real c | Renders => True end ->
  settled user stamp tags s ->
  step user tags s e = Ok s' ->
  settled user stamp tags s'.
Proof.
  intros R [L [F M]] S. destruct e as [c parsed|]; cbn [step] in S.
  - injection S as <-. unfold settled. cbn [shown hook merged].
    destruct (arrival_appends_numbered c parsed (hook s) R) as [extra [E Fx]].
    rewrite E. split; [rewrite length_app; lia|].
    split; [apply Forall_app; now split|].
    rewrite M. destruct (Nat.eqb (merged s) 0); [reflexivity|].
    rewrite firstn_app.
    replace (merged s - List.length (Hook.messages (hook s)))%nat
      with 0%nat by lia.
    cbn [firstn]. now rewrite app_nil_r.
  - destruct (Nat.eqb (List.length (Hook.messages (hook s))) (merged s)) eqn:Q.
    { injection S as <-. now repeat split. }
    apply Nat.eqb_neq in Q.
    destruct (Hook.messages (hook s)) as [|m rest] eqn:Ms;
      [cbn [List.length] in *; lia|].
    cbn [Dashboard.sync_effect] in S. unfold Dashboard.merge in S.
    destruct (Nat.eqb (merged s) 0) eqn:Z.
    + rewrite M in S. cbn in S. injection S as <-.
      unfold settled. cbn [shown hook merged Dashboard.messages]. rewrite Ms.
      split; [apply Nat.le_refl|]. split; [exact F|].
      cbn [Nat.eqb firstn Dashboard.format_all]. now rewrite firstn_all.
    + exfalso. apply Nat.eqb_neq in Z. rewrite M in S.
      destruct (Dashboard.nonWelcome
                  (Dashboard.format_all user tags 0
                     (firstn (merged s) (m :: rest)))) as [kept|] eqn:K;
        [|discriminate].
      revert K. apply merged_list_cannot_be_filtered.
      * now apply Forall_firstn_of.
      * destruct (merged s); [lia | discriminate].
Qed.

Lemma run_settled (user : option string) (stamp : string)
  (tags : nat -> string) (events : list event) :
  forall s s',
    real_clocks events ->
    settled user stamp tags s ->
    run user tags events s = Ok s' ->
    settled user stamp tags s'.
Proof.
  induction events as [|e rest IH]; intros s s' R I H; cbn [run] in H.
  - now injection H as <-.
  - inversion R as [|? ? Re Rrest]; subst.
    destruct (step user tags s e) as [s1|] eqn:S; cbn [bind] in H;
      [|discriminate].
    apply (IH s1 s' Rrest); [|exact H].
    exact (step_settled user stamp tags e s s1 Re I S).
Qed.


End AtMostOnce.

